(** * operator_csv_libs.imagerepo: digest resolution against three registry
      backends

    A shallow embedding of [src/operator_csv_libs/imagerepo.py]: the facade
    [ImageRepo] and the adapters [ArtifactoryRepo], [QuayRepo] and
    [DockerRepo], followed by the properties established about them.

    Conventions of the embedding.
    - A Python [str] is a [string]; the [bytes] captured from a subprocess are
      a [string] as well, and [decode_utf8] of the world turns one into the
      other.
    - Values that come out of [json.loads] / [resp.json()] are [pyval]s; a
      Python [float] is a binary64 number of the kernel.
    - A call that may raise returns a [result]; exceptions carry their class
      and their argument.
    - Everything the module reaches outside itself (environment variables,
      the HTTP client, the artifact-store client, the subprocess runner, the
      JSON and UTF-8 decoders) is a field of [World].
    - The [Image] class lives in another module of the package; only the four
      accessors the adapters call are taken, as fields of a record. *)

From Stdlib Require Import String Ascii List ZArith Bool Lia.
From Stdlib Require Import PrimFloat.
Import ListNotations.
Open Scope list_scope.
Open Scope string_scope.

(* ===================================================================== *)
(** ** Python strings *)
(* ===================================================================== *)

Module PyStr.

(** [s.startswith(p)] *)
Definition startswith (s p : string) : bool := String.prefix p s.

(** [p in s] for two strings: [p] occurs at some position of [s]. *)
Fixpoint contains (p s : string) : bool :=
  String.prefix p s ||
  match s with
  | EmptyString => false
  | String _ s' => contains p s'
  end.

(** [sep.join(l)] *)
Fixpoint join (sep : string) (l : list string) : string :=
  match l with
  | [] => ""
  | [x] => x
  | x :: tl => x ++ sep ++ join sep tl
  end.

(** [s.split(c)] for a separator of one character: never the empty list. *)
Fixpoint split (c : ascii) (s : string) : list string :=
  match s with
  | EmptyString => [""]
  | String a s' =>
      if Ascii.eqb a c then "" :: split c s'
      else match split c s' with
           | [] => [String a ""]
           | w :: ws => String a w :: ws
           end
  end.

(** [l[0]] on the outcome of a split (which is never empty). *)
Definition first (l : list string) : string :=
  match l with
  | [] => ""
  | x :: _ => x
  end.

(** [l[1:]] *)
Definition from1 (l : list string) : list string := List.tl l.

(** [s.replace(old, new)]: one pass from the left, occurrences do not
    overlap.  [skip] counts the characters of a matched occurrence that are
    still to be dropped.  With an empty [old], Python puts [new] before
    every character and at the end. *)
Fixpoint replace_from (old new : string) (skip : nat) (s : string) : string :=
  match s with
  | EmptyString =>
      match old with EmptyString => new | _ => "" end
  | String a s' =>
      match skip with
      | S k => replace_from old new k s'
      | O =>
          if String.prefix old s then
            match String.length old with
            | O => new ++ String a (replace_from old new 0 s')
            | S k => new ++ replace_from old new k s'
            end
          else String a (replace_from old new 0 s')
      end
  end.

Definition replace (s old new : string) : string := replace_from old new 0 s.

(** The two hand-made readings used to compare [split] with plain words:
    the part of [s] before the first [c] (all of [s] when there is none) and
    the part after the first [c] (empty when there is none). *)
Fixpoint before_first (c : ascii) (s : string) : string :=
  match s with
  | EmptyString => ""
  | String a s' => if Ascii.eqb a c then "" else String a (before_first c s')
  end.

Fixpoint after_first (c : ascii) (s : string) : string :=
  match s with
  | EmptyString => ""
  | String a s' => if Ascii.eqb a c then s' else after_first c s'
  end.

Fixpoint occurs (c : ascii) (s : string) : bool :=
  match s with
  | EmptyString => false
  | String a s' => Ascii.eqb a c || occurs c s'
  end.

(** Lowercase hexadecimal digits, and the digest shape
    [sha256:<64 lowercase hex characters>]. *)
Definition is_lower_hex (a : ascii) : bool :=
  let n := nat_of_ascii a in
  (Nat.leb 48 n && Nat.leb n 57) || (Nat.leb 97 n && Nat.leb n 102).

Fixpoint all_chars (f : ascii -> bool) (s : string) : bool :=
  match s with
  | EmptyString => true
  | String a s' => f a && all_chars f s'
  end.

Definition is_hex64 (s : string) : bool :=
  Nat.eqb (String.length s) 64 && all_chars is_lower_hex s.

Definition is_sha256_digest (s : string) : bool :=
  match s with
  | String "s" (String "h" (String "a" (String "2" (String "5"
      (String "6" (String ":" h)))))) => is_hex64 h
  | _ => false
  end.

End PyStr.

(* ===================================================================== *)
(** ** Python values, exceptions and results *)
(* ===================================================================== *)

#[local] Set Warnings "-register-all".

(** What [json.loads] and [resp.json()] produce, and what the digest
    methods return.  A [PyDict] lists its items; keys of a parsed document
    are strings and a lookup takes the first item with the key. *)
Inductive pyval : Type :=
| PyNone
| PyBool (b : bool)
| PyInt (z : Z)
| PyFloat (f : float)
| PyString (s : string)
| PyList (l : list pyval)
| PyDict (items : list (string * pyval)).

(** The exception classes of the module (the last four of the source file)
    and the built-in ones its statements can raise or catch.
    [NotImplementedError] and [RecursionError] are the subclasses of
    [RuntimeError]; [OtherError] stands for any class that derives from
    [Exception] and from no other class named here. *)
Inductive exn_class : Type :=
| MissingCredentials
| RepoTypeNotImplemented
| ManifestListNotFound
| ManifestNotFound
| Exception
| KeyError
| TypeError
| AttributeError
| FileNotFoundError
| RuntimeError
| NotImplementedError
| RecursionError
| JSONDecodeError
| UnicodeDecodeError
| OtherError.

(** An exception object: [C(v)] for a value, [C(e)] when the argument is
    another exception (as in [raise ManifestNotFound(e)]), and [C(t.format(..))]
    for the one message whose arguments are not all strings. *)
Inductive exn : Type :=
| Exn (c : exn_class) (arg : pyval)
| ExnOf (c : exn_class) (cause : exn)
| ExnFormat (c : exn_class) (template : string) (args : list pyval).

Definition class_of (e : exn) : exn_class :=
  match e with
  | Exn c _ | ExnOf c _ | ExnFormat c _ _ => c
  end.

(** The shared error taxonomy: the four classes the module defines. *)
Definition in_taxonomy (c : exn_class) : bool :=
  match c with
  | MissingCredentials | RepoTypeNotImplemented
  | ManifestListNotFound | ManifestNotFound => true
  | _ => false
  end.

Definition exn_class_eq_dec (a b : exn_class) : {a = b} + {a <> b}.
Proof. decide equality. Defined.

Definition class_eqb (a b : exn_class) : bool :=
  if exn_class_eq_dec a b then true else false.

(** [issubclass(c, C)]: every class derives from [Exception], and
    [NotImplementedError] and [RecursionError] derive from [RuntimeError]. *)
Definition is_subclass (c C : exn_class) : bool :=
  class_eqb c C ||
  match C with
  | Exception => true
  | RuntimeError =>
      match c with
      | NotImplementedError | RecursionError => true
      | _ => false
      end
  | _ => false
  end.

Inductive result (A : Type) : Type :=
| Return (a : A)
| Raise (e : exn).
Arguments Return {A} a.
Arguments Raise {A} e.

Definition bind {A B} (r : result A) (k : A -> result B) : result B :=
  match r with
  | Return a => k a
  | Raise e => Raise e
  end.

Declare Scope py_scope.
Delimit Scope py_scope with py.
Notation "x <- r ;; k" := (bind r (fun x => k))
  (at level 61, r at next level, right associativity) : py_scope.
Open Scope py_scope.

(** [try: r  except C1 as e: h1 e  except C2 as e: h2 e ...]: the first
    handler whose class is the class of the exception or a base class of it
    runs; an exception raised by a handler is not handled again. *)
Fixpoint handle {A} (hs : list (exn_class * (exn -> result A))) (e : exn)
  : result A :=
  match hs with
  | [] => Raise e
  | (C, h) :: rest => if is_subclass (class_of e) C then h e else handle rest e
  end.

Definition try_except {A} (r : result A)
    (hs : list (exn_class * (exn -> result A))) : result A :=
  match r with
  | Return a => Return a
  | Raise e => handle hs e
  end.

Module Py.

Fixpoint lookup (k : string) (items : list (string * pyval)) : option pyval :=
  match items with
  | [] => None
  | (k', v) :: rest => if String.eqb k k' then Some v else lookup k rest
  end.

(** [obj[key]] for a string key. *)
Definition getitem (obj : pyval) (key : string) : result pyval :=
  match obj with
  | PyDict items =>
      match lookup key items with
      | Some v => Return v
      | None => Raise (Exn KeyError (PyString key))
      end
  | _ => Raise (Exn TypeError (PyString key))
  end.

(** [len(v)] *)
Definition len (v : pyval) : result Z :=
  match v with
  | PyString s => Return (Z.of_nat (String.length s))
  | PyList l => Return (Z.of_nat (List.length l))
  | PyDict items => Return (Z.of_nat (List.length items))
  | _ => Raise (Exn TypeError v)
  end.

Fixpoint chars (s : string) : list pyval :=
  match s with
  | EmptyString => []
  | String a s' => PyString (String a "") :: chars s'
  end.

(** The elements [for t in v] visits. *)
Definition iter (v : pyval) : result (list pyval) :=
  match v with
  | PyString s => Return (chars s)
  | PyList l => Return l
  | PyDict items => Return (map (fun kv => PyString (fst kv)) items)
  | _ => Raise (Exn TypeError v)
  end.

(** [v == b] for a Python bool [b]: a bool is the integer 1 or 0, so
    [True == 1], [False == 0], [True == 1.0] and [False == 0.0] hold (and
    [False == -0.0]); a value of another type equals no bool. *)
Definition eq_bool (v : pyval) (b : bool) : bool :=
  match v with
  | PyBool b' => Bool.eqb b' b
  | PyInt z => Z.eqb z (if b then 1 else 0)
  | PyFloat f => PrimFloat.eqb f (if b then 1%float else 0%float)
  | _ => false
  end.

(** [v == s] for a string [s]. *)
Definition eq_str (v : pyval) (s : string) : bool :=
  match v with
  | PyString s' => String.eqb s' s
  | _ => false
  end.

(** [needle in v] for a string [needle]. *)
Definition contains (needle : string) (v : pyval) : result bool :=
  match v with
  | PyString s => Return (PyStr.contains needle s)
  | PyList l => Return (existsb (fun x => eq_str x needle) l)
  | PyDict items =>
      Return (match lookup needle items with Some _ => true | None => false end)
  | _ => Raise (Exn TypeError v)
  end.

(** [bool(x)] for an argument that is [None] or a string. *)
Definition truthy (x : option string) : bool :=
  match x with
  | None => false
  | Some s => negb (String.eqb s "")
  end.

(** ['{}'.format(x)] for [x] that is [None] or a string. *)
Definition str (x : option string) : string :=
  match x with
  | None => "None"
  | Some s => s
  end.

End Py.

(* ===================================================================== *)
(** ** The world outside the module *)
(* ===================================================================== *)

(** [requests.Response]: the three members [_get_digest] reads. *)
Record Response : Type := {
  status_code : Z;
  text : string;
  json : result pyval            (* resp.json() *)
}.

(** The file object [ArtifactoryPath.open()] returns: what its [read()]
    gives, bytes or an exception. *)
Record file : Type := {
  read : result string
}.

Record World : Type := {
  (** [os.environ] *)
  environ : list (string * string);
  (** [requests.get(url)] *)
  requests_get : string -> result Response;
  (** [ArtifactoryPath.stat(ArtifactoryPath(path, auth=(user, key))).sha256] *)
  stat_sha256 : string -> option string * option string -> result (option string);
  (** [ArtifactoryPath(path, auth=(user, key)).open()] *)
  path_open : string -> option string * option string -> result file;
  (** [subprocess.run(argv, capture_output=True).stdout] *)
  run_stdout : list string -> string;
  (** [json.loads(text)] *)
  json_loads : string -> result pyval;
  (** [bytes.decode("utf-8")] *)
  decode_utf8 : string -> result string
}.

(** [os.getenv(k)], which is [None] exactly when [k in os.environ] fails. *)
Fixpoint os_getenv (env : list (string * string)) (k : string) : option string :=
  match env with
  | [] => None
  | (k', v) :: rest => if String.eqb k k' then Some v else os_getenv rest k
  end.

(** The accessors of [images.Image] the adapters call. *)
Record Image : Type := {
  get_image : string;
  get_image_repo : string;
  get_image_name : string;
  get_tag : string
}.

(** [k in os.environ] *)
Definition in_environ (env : list (string * string)) (k : string) : bool :=
  match os_getenv env k with
  | Some _ => true
  | None => false
  end.

(** [sep.join(l)] when the items may be [None]: Python raises [TypeError]
    on an item that is not a string. *)
Fixpoint strings_of (l : list (option string)) : option (list string) :=
  match l with
  | [] => Some []
  | None :: _ => None
  | Some s :: tl =>
      match strings_of tl with
      | Some ss => Some (s :: ss)
      | None => None
      end
  end.

Definition join_items (sep : string) (l : list (option string)) : result string :=
  match strings_of l with
  | Some ss => Return (PyStr.join sep ss)
  | None => Raise (Exn TypeError (PyString "sequence item: expected str instance"))
  end.

(** Reading [self.name]: the attribute of the instance when it has been
    assigned on the instance, the attribute of the class otherwise. *)
Definition getattr_ {A} (own : option A) (of_class : A) : A :=
  match own with
  | Some v => v
  | None => of_class
  end.

(* ===================================================================== *)
(** ** class ArtifactoryRepo *)
(* ===================================================================== *)

Module ArtifactoryRepo.

(** The attributes of the class object, shared by all instances
    ([_artifactory_user = None] and so on in the class body). *)
Record class_attrs : Type := {
  _artifactory_user : option string;
  _artifactory_key : option string;
  _artifactory_base : option string
}.

(** The attributes of one instance.  [own_*] are the attributes
    [_artifactory_*] of the instance itself, present once [__init__] has
    assigned [self._artifactory_* = ...]. *)
Record t : Type := {
  image : Image;
  artifactory_user : option string;
  artifactory_key : option string;
  artifactory_base : option string;
  own_artifactory_user : option (option string);
  own_artifactory_key : option (option string);
  own_artifactory_base : option (option string)
}.

Definition no_user : string :=
  "No artifactory user provided or found in ARTIFACTORY_USER environment variable".
Definition no_key : string :=
  "No artifactory key provided or found in ARTIFACTORY_KEY environment variable".
Definition no_base : string :=
  "No artifactory base provided or found in ARTIFACTORY_BASE environment variable".

(** [__init__(self, image, artifactory_base=None, artifactory_user=None,
    artifactory_key=None)].  Each block yields the value assigned to
    [self.artifactory_*] and the attribute [self._artifactory_*] of the
    instance after it; nothing assigns to the class. *)
Definition __init__ (w : World) (cls : class_attrs) (image : Image)
    (artifactory_base artifactory_user artifactory_key : option string)
  : result t :=
  user <-
    (if Py.truthy artifactory_user then Return (artifactory_user, None)
     else if Py.truthy (getattr_ None (_artifactory_user cls)) then
       Return (getattr_ None (_artifactory_user cls), None)
     else if in_environ (environ w) "ARTIFACTORY_USER" then
       let own := Some (os_getenv (environ w) "ARTIFACTORY_USER") in
       Return (getattr_ own (_artifactory_user cls), own)
     else Raise (Exn MissingCredentials (PyString no_user))) ;;
  key <-
    (if Py.truthy artifactory_key then Return (artifactory_key, None)
     else if Py.truthy (getattr_ None (_artifactory_key cls)) then
       Return (getattr_ None (_artifactory_key cls), None)
     else if in_environ (environ w) "ARTIFACTORY_KEY" then
       let own := Some (os_getenv (environ w) "ARTIFACTORY_KEY") in
       Return (getattr_ own (_artifactory_key cls), own)
     else Raise (Exn MissingCredentials (PyString no_key))) ;;
  base <-
    (if Py.truthy artifactory_base then Return (artifactory_base, None)
     else if Py.truthy (getattr_ None (_artifactory_base cls)) then
       Return (getattr_ None (_artifactory_base cls), None)
     else if in_environ (environ w) "ARTIFACTORY_BASE" then
       let own := Some (os_getenv (environ w) "ARTIFACTORY_BASE") in
       Return (getattr_ own (_artifactory_base cls), own)
     else Raise (Exn MissingCredentials (PyString no_base))) ;;
  Return {| image := image;
            artifactory_user := fst user;
            artifactory_key := fst key;
            artifactory_base := fst base;
            own_artifactory_user := snd user;
            own_artifactory_key := snd key;
            own_artifactory_base := snd base |}.

Definition _get_artifactory_repo (self : t) : string :=
  let p := PyStr.join "/"
             (PyStr.from1 (PyStr.split "/" (get_image_repo (image self)))) in
  let r := PyStr.first (PyStr.split "." (get_image_repo (image self))) in
  r ++ "/" ++ p.

(** The argument of [ArtifactoryPath] in [_get_raw_image_digest]. *)
Definition manifestpath (self : t) : result string :=
  join_items "/" [ artifactory_base self;
                   Some (_get_artifactory_repo self);
                   Some (get_image_name (image self));
                   Some (get_tag (image self));
                   Some "manifest.json" ].

(** The argument of [ArtifactoryPath] in [_get_raw_manifest_list_digest]
    and in [get_raw_manifest_list]. *)
Definition listpath (self : t) : result string :=
  join_items "/" [ artifactory_base self;
                   Some (_get_artifactory_repo self);
                   Some (get_image_name (image self));
                   Some (get_tag (image self));
                   Some "list.manifest.json" ].

Definition _get_raw_image_digest (w : World) (self : t) : result (option string) :=
  manifest_path <- manifestpath self ;;
  try_except
    (stat_sha256 w manifest_path (artifactory_user self, artifactory_key self))
    [ (FileNotFoundError, fun e => Raise (ExnOf ManifestNotFound e)) ].

Definition get_image_digest (w : World) (self : t) : result pyval :=
  h <- _get_raw_image_digest w self ;;
  Return (PyString ("sha256:" ++ Py.str h)).

Definition _get_raw_manifest_list_digest (w : World) (self : t)
  : result (option string) :=
  list_path <- listpath self ;;
  try_except
    (stat_sha256 w list_path (artifactory_user self, artifactory_key self))
    [ (FileNotFoundError, fun e => Raise (ExnOf ManifestListNotFound e)) ].

Definition get_manifest_list_digest (w : World) (self : t) : result pyval :=
  h <- _get_raw_manifest_list_digest w self ;;
  Return (PyString ("sha256:" ++ Py.str h)).

Definition get_raw_manifest_list (w : World) (self : t) : result pyval :=
  list_path <- listpath self ;;
  f <- try_except
         (path_open w list_path (artifactory_user self, artifactory_key self))
         [ (FileNotFoundError, fun e => Raise (ExnOf ManifestListNotFound e));
           (RuntimeError, fun e => Raise (ExnOf ManifestListNotFound e)) ] ;;
  content <- read f ;;
  text <- decode_utf8 w content ;;
  json_loads w text.

(** *** The constructor, statement by statement, over attribute stores

    The same [__init__] with the two objects it touches made explicit: the
    attributes of the class and the attributes of the instance under
    construction, each a list of names with their values ([None] or a
    string), newest first.  [self.image = image] is kept beside the store. *)

Definition attrs : Type := list (string * option string).

Fixpoint find (name : string) (a : attrs) : option (option string) :=
  match a with
  | [] => None
  | (n, v) :: rest => if String.eqb name n then Some v else find name rest
  end.

Record store : Type := {
  of_class : attrs;
  of_self : attrs
}.

(** [self.name]: the attribute of the instance, else the one of the class. *)
Definition getattr (s : store) (name : string) : result (option string) :=
  match find name (of_self s) with
  | Some v => Return v
  | None =>
      match find name (of_class s) with
      | Some v => Return v
      | None => Raise (Exn AttributeError (PyString name))
      end
  end.

(** [self.name = v]: an assignment through [self] binds the name on the
    instance. *)
Definition setattr (s : store) (name : string) (v : option string) : store :=
  {| of_class := of_class s; of_self := (name, v) :: of_self s |}.

(** A statement: from a store to its outcome and the store after it. *)
Definition stmt (A : Type) : Type := store -> result A * store.

Definition seq {A B} (m : stmt A) (k : A -> stmt B) : stmt B :=
  fun s =>
    match m s with
    | (Return a, s') => k a s'
    | (Raise e, s') => (Raise e, s')
    end.

Definition read_self (name : string) : stmt (option string) :=
  fun s => (getattr s name, s).

Definition assign_self (name : string) (v : option string) : stmt unit :=
  fun s => (Return tt, setattr s name v).

Definition raise {A} (e : exn) : stmt A := fun s => (Raise e, s).

(** The class body: [_artifactory_user = None] and so on. *)
Definition class_body : attrs :=
  [("_artifactory_user", None); ("_artifactory_key", None);
   ("_artifactory_base", None)].

(** The three blocks of [__init__] (lines 50 to 82). *)
Definition init_statements (w : World)
    (artifactory_base artifactory_user artifactory_key : option string)
  : stmt unit :=
  seq
    (if Py.truthy artifactory_user then
       assign_self "artifactory_user" artifactory_user
     else
       seq (read_self "_artifactory_user") (fun cached =>
       if Py.truthy cached then
         seq (read_self "_artifactory_user") (fun v =>
         assign_self "artifactory_user" v)
       else if in_environ (environ w) "ARTIFACTORY_USER" then
         seq (assign_self "_artifactory_user"
                (os_getenv (environ w) "ARTIFACTORY_USER")) (fun _ =>
         seq (read_self "_artifactory_user") (fun v =>
         assign_self "artifactory_user" v))
       else raise (Exn MissingCredentials (PyString no_user))))
    (fun _ =>
  seq
    (if Py.truthy artifactory_key then
       assign_self "artifactory_key" artifactory_key
     else
       seq (read_self "_artifactory_key") (fun cached =>
       if Py.truthy cached then
         seq (read_self "_artifactory_key") (fun v =>
         assign_self "artifactory_key" v)
       else if in_environ (environ w) "ARTIFACTORY_KEY" then
         seq (assign_self "_artifactory_key"
                (os_getenv (environ w) "ARTIFACTORY_KEY")) (fun _ =>
         seq (read_self "_artifactory_key") (fun v =>
         assign_self "artifactory_key" v))
       else raise (Exn MissingCredentials (PyString no_key))))
    (fun _ =>
    (if Py.truthy artifactory_base then
       assign_self "artifactory_base" artifactory_base
     else
       seq (read_self "_artifactory_base") (fun cached =>
       if Py.truthy cached then
         seq (read_self "_artifactory_base") (fun v =>
         assign_self "artifactory_base" v)
       else if in_environ (environ w) "ARTIFACTORY_BASE" then
         seq (assign_self "_artifactory_base"
                (os_getenv (environ w) "ARTIFACTORY_BASE")) (fun _ =>
         seq (read_self "_artifactory_base") (fun v =>
         assign_self "artifactory_base" v))
       else raise (Exn MissingCredentials (PyString no_base)))))).

(** [ArtifactoryRepo(image, artifactory_base, artifactory_user,
    artifactory_key)] in a process whose class object has the attributes
    [cls]: the image and the attributes of the new instance, or the
    exception, together with the attributes of the class after the call. *)
Definition construct (w : World) (cls : attrs) (image : Image)
    (artifactory_base artifactory_user artifactory_key : option string)
  : result (Image * attrs) * attrs :=
  match init_statements w artifactory_base artifactory_user artifactory_key
          {| of_class := cls; of_self := [] |} with
  | (Return _, s) => (Return (image, of_self s), of_class s)
  | (Raise e, s) => (Raise e, of_class s)
  end.

(** The class attributes of the record view, as a store. *)
Definition class_store (cls : class_attrs) : attrs :=
  [("_artifactory_user", _artifactory_user cls);
   ("_artifactory_key", _artifactory_key cls);
   ("_artifactory_base", _artifactory_base cls)].

End ArtifactoryRepo.

(* ===================================================================== *)
(** ** class QuayRepo *)
(* ===================================================================== *)

Module QuayRepo.

Definition QUAY_BASE_URL : string := "https://quay.io/api/v1/repository".

Record t : Type := { image : Image }.

Definition __init__ (image : Image) : t := {| image := image |}.

Definition _get_quay_repo (self : t) : string :=
  let r := PyStr.replace (get_image_repo (image self)) "quay.io/" "" in
  PyStr.join "/" [r; get_image_name (image self)].

Definition url (self : t) : string :=
  PyStr.join "/" [ QUAY_BASE_URL;
                   _get_quay_repo self;
                   "tag";
                   "?onlyActiveTags=true&specificTag=" ].

(** The body of [for t in tags]: every branch leaves the function, so the
    loop never reaches a second entry; with no entry the function ends
    without a [return], which yields [None]. *)
Definition for_tags (self : t) (manifest_list : bool) (tags : list pyval)
  : result pyval :=
  match tags with
  | [] => Return PyNone
  | t :: _ =>
      flag <- Py.getitem t "is_manifest_list" ;;
      if Py.eq_bool flag manifest_list then
        Py.getitem t "manifest_digest"
      else if manifest_list then
        Raise (Exn ManifestListNotFound
                 (PyString ("Tag " ++ get_tag (image self) ++ " is not manifest list")))
      else
        Raise (Exn ManifestNotFound
                 (PyString ("Tag " ++ get_tag (image self) ++ " is a manifest list")))
  end.

Definition _get_digest (w : World) (self : t) (manifest_list : bool)
  : result pyval :=
  resp <- requests_get w (url self ++ get_tag (image self)) ;;
  if Z.eqb (status_code resp) 403 then
    Raise (Exn MissingCredentials (PyString (text resp)))
  else if Z.eqb (status_code resp) 404 then
    if manifest_list then Raise (Exn ManifestListNotFound (PyString (text resp)))
    else Raise (Exn ManifestNotFound (PyString (text resp)))
  else if negb (Z.eqb (status_code resp) 200) then
    Raise (Exn Exception (PyString (text resp)))
  else
    doc <- json resp ;;
    tags <- Py.getitem doc "tags" ;;
    n <- Py.len tags ;;
    if Z.ltb 1 n then
      Raise (ExnFormat Exception "Expected 1 tag, found {}. {}" [PyInt n; tags])
    else
      ts <- Py.iter tags ;;
      for_tags self manifest_list ts.

Definition get_image_digest (w : World) (self : t) : result pyval :=
  _get_digest w self false.

Definition get_manifest_list_digest (w : World) (self : t) : result pyval :=
  _get_digest w self true.

End QuayRepo.

(* ===================================================================== *)
(** ** Calls that leave a trace *)
(* ===================================================================== *)

(** What a call does to the outside, in order: the command lines handed to
    [subprocess.run] and what is printed. *)
Inductive event : Type :=
| Ran (argv : list string)
| Printed (s : string)
| PrintedValue (v : pyval).

Definition traced (A : Type) : Type := list event * result A.

Definition tbind {A B} (m : traced A) (k : A -> traced B) : traced B :=
  match m with
  | (log, Return a) => let (log', r) := k a in ((log ++ log')%list, r)
  | (log, Raise e) => (log, Raise e)
  end.

Definition lift {A} (r : result A) : traced A := ([], r).

Notation "x <~ m ;; k" := (tbind m (fun x => k))
  (at level 61, m at next level, right associativity) : py_scope.

(** [subprocess.run(argv, capture_output=True).stdout] *)
Definition run (w : World) (argv : list string) : traced string :=
  ([Ran argv], Return (run_stdout w argv)).

Definition print (s : string) : traced unit := ([Printed s], Return tt).
Definition print_value (v : pyval) : traced unit := ([PrintedValue v], Return tt).

(** [try: m  except Exception as e: h e]: every exception of the model is
    an [Exception]. *)
Definition try_except_Exception {A} (m : traced A) (h : exn -> traced A)
  : traced A :=
  match m with
  | (log, Return a) => (log, Return a)
  | (log, Raise e) => let (log', r) := h e in ((log ++ log')%list, r)
  end.

Definition commands (log : list event) : list (list string) :=
  flat_map (fun ev => match ev with Ran argv => [argv] | _ => [] end) log.

(* ===================================================================== *)
(** ** class DockerRepo *)
(* ===================================================================== *)

Module DockerRepo.

(** [own_docker_*] are the attributes [_docker_*] the constructor assigns
    on the instance when it reads the environment. *)
Record t : Type := {
  image : Image;
  docker_user : option string;
  docker_key : option string;
  own_docker_user : option (option string);
  own_docker_key : option (option string)
}.

Definition __init__ (w : World) (image : Image)
    (docker_user docker_key : option string) : t :=
  let user :=
    if Py.truthy docker_user then (docker_user, None)
    else if in_environ (environ w) "DOCKER_USER" then
      let own := os_getenv (environ w) "DOCKER_USER" in (own, Some own)
    else (None, None) in
  let key :=
    if Py.truthy docker_key then (docker_key, None)
    else if in_environ (environ w) "DOCKER_KEY" then
      let own := os_getenv (environ w) "DOCKER_KEY" in (own, Some own)
    else (None, None) in
  {| image := image;
     docker_user := fst user;
     docker_key := fst key;
     own_docker_user := snd user;
     own_docker_key := snd key |}.

(** The command string of [get_raw_manifest_list], after the [replace]. *)
Definition raw_manifest_list_command (self : t) : string :=
  let skopeoCommand :=
    match docker_key self, docker_user self with
    | Some key, Some user =>
        "skopeo inspect --creds " ++ user ++ ":" ++ key
        ++ " --override-os linux --raw docker://" ++ get_image (image self)
    | _, _ =>
        "skopeo inspect --override-os linux --raw docker://"
        ++ get_image (image self)
    end in
  PyStr.replace skopeoCommand "docker.io/" "".

Definition get_raw_manifest_list (w : World) (self : t) : traced pyval :=
  let skopeoCommand := raw_manifest_list_command self in
  _ <~ print skopeoCommand ;;
  let command := ["/bin/bash"; "-c"; skopeoCommand] in
  try_except_Exception
    (stdout <~ run w command ;;
     out <~ lift (json_loads w stdout) ;;
     mediaType <~ lift (Py.getitem out "mediaType") ;;
     _ <~ print_value mediaType ;;
     mediaType' <~ lift (Py.getitem out "mediaType") ;;
     is_list <~ lift (Py.contains "manifest.list" mediaType') ;;
     if is_list : bool then lift (Return out)
     else lift (Raise (Exn ManifestListNotFound out)))
    (fun e =>
       lift (Raise (Exn ManifestListNotFound (PyString "error with skopeo command")))).

(** The three command strings of [_get_digest]. *)
Definition raw_inspect_command (self : t) : string :=
  match docker_key self, docker_user self with
  | Some key, Some user =>
      "skopeo inspect --creds" ++ user ++ ":" ++ key
      ++ " --override-os linux --raw docker://" ++ get_image (image self)
  | _, _ =>
      "skopeo inspect --override-os linux --raw docker://"
      ++ get_image (image self)
  end.

Definition sha_command (self : t) : string :=
  match docker_key self, docker_user self with
  | Some key, Some user =>
      "skopeo inspect --creds" ++ user ++ ":" ++ key
      ++ " --override-os linux --raw docker://" ++ get_image (image self)
      ++ " | shasum -a 256"
  | _, _ =>
      "skopeo inspect --override-os linux --raw docker://"
      ++ get_image (image self) ++ " | shasum -a 256"
  end.

Definition inspect_command (self : t) : string :=
  match docker_key self, docker_user self with
  | Some key, Some user =>
      "skopeo inspect --creds" ++ user ++ ":" ++ key
      ++ " --override-os linux docker://" ++ get_image (image self)
  | _, _ =>
      "skopeo inspect --override-os linux docker://" ++ get_image (image self)
  end.

Definition _get_digest (w : World) (self : t) (manifest_list : bool)
  : traced pyval :=
  let skopeoCommand := raw_inspect_command self in
  let command := ["/bin/bash"; "-c"; skopeoCommand] in
  stdout <~ run w command ;;
  out <~ lift (json_loads w stdout) ;;
  mediaType <~ lift (Py.getitem out "mediaType") ;;
  is_list <~ lift (Py.contains "manifest.list" mediaType) ;;
  if is_list : bool then
    if manifest_list then
      let shaCommand := sha_command self in
      let command := ["/bin/bash"; "-c"; shaCommand] in
      stdout <~ run w command ;;
      out <~ lift (decode_utf8 w stdout) ;;
      let out := PyStr.first (PyStr.split " " out) in
      lift (Return (PyString ("sha256:" ++ out)))
    else
      (* pass: the function ends without a return *)
      lift (Return PyNone)
  else
    let skopeoCommand := inspect_command self in
    let command := ["/bin/bash"; "-c"; skopeoCommand] in
    stdout <~ run w command ;;
    out <~ lift (json_loads w stdout) ;;
    if manifest_list then
      lift (Raise (Exn ManifestListNotFound (PyString "Manifest List does not exist")))
    else
      lift (Py.getitem out "Digest").

Definition get_image_digest (w : World) (self : t) : traced pyval :=
  _get_digest w self false.

Definition get_manifest_list_digest (w : World) (self : t) : traced pyval :=
  _get_digest w self true.

End DockerRepo.

(* ===================================================================== *)
(** ** class ImageRepo, the facade *)
(* ===================================================================== *)

Module ImageRepo.

(** The object held in [self.image_repo]. *)
Inductive adapter : Type :=
| Artifactory (r : ArtifactoryRepo.t)
| Quay (r : QuayRepo.t)
| Docker (r : DockerRepo.t).

Record t : Type := {
  image : Image;
  image_repo : adapter
}.

Definition __init__ (w : World) (cls : ArtifactoryRepo.class_attrs)
    (image : Image) : result t :=
  if PyStr.contains "artifactory" (get_image_repo image) then
    r <- ArtifactoryRepo.__init__ w cls image None None None ;;
    Return {| image := image; image_repo := Artifactory r |}
  else if PyStr.startswith (get_image_repo image) "quay.io/" then
    Return {| image := image; image_repo := Quay (QuayRepo.__init__ image) |}
  else if PyStr.startswith (get_image_repo image) "docker.io" then
    Return {| image := image;
              image_repo := Docker (DockerRepo.__init__ w image None None) |}
  else
    Raise (Exn RepoTypeNotImplemented
             (PyString ("Unknown repository type for image " ++ get_image image))).

(** The methods without arguments that the class of the adapter defines,
    by name: what [self.image_repo.<name>] finds. *)
Definition method_of (a : adapter) (name : string)
  : option (World -> traced pyval) :=
  match a with
  | Artifactory r =>
      if String.eqb name "get_image_digest" then
        Some (fun w => lift (ArtifactoryRepo.get_image_digest w r))
      else if String.eqb name "get_manifest_list_digest" then
        Some (fun w => lift (ArtifactoryRepo.get_manifest_list_digest w r))
      else if String.eqb name "get_raw_manifest_list" then
        Some (fun w => lift (ArtifactoryRepo.get_raw_manifest_list w r))
      else None
  | Quay r =>
      if String.eqb name "get_image_digest" then
        Some (fun w => lift (QuayRepo.get_image_digest w r))
      else if String.eqb name "get_manifest_list_digest" then
        Some (fun w => lift (QuayRepo.get_manifest_list_digest w r))
      else None
  | Docker r =>
      if String.eqb name "get_image_digest" then
        Some (fun w => DockerRepo.get_image_digest w r)
      else if String.eqb name "get_manifest_list_digest" then
        Some (fun w => DockerRepo.get_manifest_list_digest w r)
      else if String.eqb name "get_raw_manifest_list" then
        Some (fun w => DockerRepo.get_raw_manifest_list w r)
      else None
  end.

(** [self.image_repo.<name>()]: an [AttributeError] when the object has no
    attribute of that name. *)
Definition call (w : World) (a : adapter) (name : string) : traced pyval :=
  match method_of a name with
  | Some m => m w
  | None => lift (Raise (Exn AttributeError (PyString name)))
  end.

Definition get_manifest_list_digest (w : World) (self : t) : traced pyval :=
  call w (image_repo self) "get_manifest_list_digest".

Definition get_image_digest (w : World) (self : t) : traced pyval :=
  call w (image_repo self) "get_image_digest".

Definition get_raw_manifest_list (w : World) (self : t) : traced pyval :=
  call w (image_repo self) "get_raw_manifest_list".

End ImageRepo.

(* ===================================================================== *)
(** ** Definitions used by the statements *)
(* ===================================================================== *)

Section Statements.

Import ArtifactoryRepo.

(** One block of [__init__], as a function of the explicit argument, the
    attribute of the class, the name of the variable and the message. *)
Definition resolve (w : World) (explicit cached : option string)
    (var msg : string) : result (option string * option (option string)) :=
  if Py.truthy explicit then Return (explicit, None)
  else if Py.truthy (getattr_ None cached) then Return (getattr_ None cached, None)
  else if in_environ (environ w) var then
    let own := Some (os_getenv (environ w) var) in
    Return (getattr_ own cached, own)
  else Raise (Exn MissingCredentials (PyString msg)).

(** A source is available for a credential. *)
Definition has_source (w : World) (explicit cached : option string)
    (var : string) : bool :=
  Py.truthy explicit || Py.truthy cached || in_environ (environ w) var.

(** The path as the specification words it, for a final segment [leaf]. *)
Definition spec_path (base : string) (img : Image) (leaf : string) : string :=
  base ++ "/" ++ PyStr.before_first "." (get_image_repo img)
       ++ "/" ++ PyStr.after_first "/" (get_image_repo img)
       ++ "/" ++ get_image_name img
       ++ "/" ++ get_tag img
       ++ "/" ++ leaf.

(** The not-found error that matches the request. *)
Definition not_found (ml : bool) : exn_class :=
  if ml then ManifestListNotFound else ManifestNotFound.

End Statements.

(** ** The three credentials, uniformly *)

Inductive credential : Type := User | Key | Base.

Section PerCredential.

Import ArtifactoryRepo.

Variable w : World.
Variable cls : class_attrs.
Variables b u k : option string.

Definition explicit (c : credential) : option string :=
  match c with User => u | Key => k | Base => b end.

Definition cached (c : credential) : option string :=
  match c with
  | User => _artifactory_user cls
  | Key => _artifactory_key cls
  | Base => _artifactory_base cls
  end.

Definition variable (c : credential) : string :=
  match c with
  | User => "ARTIFACTORY_USER"
  | Key => "ARTIFACTORY_KEY"
  | Base => "ARTIFACTORY_BASE"
  end.

Definition message (c : credential) : string :=
  match c with User => no_user | Key => no_key | Base => no_base end.

Definition field (c : credential) (self : t) : option string :=
  match c with
  | User => artifactory_user self
  | Key => artifactory_key self
  | Base => artifactory_base self
  end.

(** The names of the two attributes of a credential. *)
Definition public (c : credential) : string :=
  match c with
  | User => "artifactory_user"
  | Key => "artifactory_key"
  | Base => "artifactory_base"
  end.

Definition private (c : credential) : string :=
  match c with
  | User => "_artifactory_user"
  | Key => "_artifactory_key"
  | Base => "_artifactory_base"
  end.

(** The credentials [__init__] resolves before [c]. *)
Definition earlier (c : credential) : list credential :=
  match c with User => [] | Key => [User] | Base => [User; Key] end.

Definition sourced (c : credential) : bool :=
  has_source w (explicit c) (cached c) (variable c).

End PerCredential.

Section Resolved.

Import ArtifactoryRepo.

(** What a credential resolves to: the explicit argument when it is given,
    else the attribute of the class when it is set, else the variable of the
    environment. *)
Definition resolved (w : World) (cls : class_attrs) (b u k : option string)
    (c : credential) (v : option string) : Prop :=
  (Py.truthy (explicit b u k c) = true -> v = explicit b u k c) /\
  (Py.truthy (explicit b u k c) = false ->
   Py.truthy (cached cls c) = true -> v = cached cls c) /\
  (Py.truthy (explicit b u k c) = false ->
   Py.truthy (cached cls c) = false ->
   v = os_getenv (environ w) (variable c)).

End Resolved.

(** ** Concrete worlds and images *)

Module Examples.

Definition hex64 : string :=
  "0123456789abcdef0123456789abcdef0123456789abcdef0123456789abcdef".

Definition list_media_type : string :=
  "application/vnd.docker.distribution.manifest.list.v2+json".

Definition manifest_media_type : string :=
  "application/vnd.docker.distribution.manifest.v2+json".

(** A world over the environment [env]: the registry answers every request
    with status 200 and the given [tags], the store reports a well-formed
    hash, the hashing pipeline prints one, and every JSON text parses to
    [inspect]. *)
Definition world_with (env : list (string * string)) (tags : pyval)
    (inspect : pyval) : World := {|
  environ := env;
  requests_get := fun _ =>
    Return {| status_code := 200; text := "";
              json := Return (PyDict [("tags", tags)]) |};
  stat_sha256 := fun _ _ => Return (Some hex64);
  path_open := fun _ _ => Return {| read := Return "{}" |};
  run_stdout := fun argv => hex64 ++ "  -";
  json_loads := fun _ => Return inspect;
  decode_utf8 := fun s => Return s
|}.

Definition tag_entry (is_list : bool) (digest : string) : pyval :=
  PyDict [("is_manifest_list", PyBool is_list);
          ("manifest_digest", PyString digest)].

Definition quiet : World :=
  world_with [] (PyList []) (PyDict [("mediaType", PyString list_media_type)]).

Definition plain : World :=
  world_with [] (PyList [tag_entry false "md5:0f343b0931126a20f133d67c2b018a3b"])
    (PyDict [("mediaType", PyString manifest_media_type);
             ("Digest", PyString ("sha256:" ++ hex64))]).

Definition listed : World :=
  world_with [] (PyList [tag_entry true ("sha256:" ++ hex64)])
    (PyDict [("mediaType", PyString list_media_type)]).

Definition with_env : World :=
  world_with [("ARTIFACTORY_USER", "env-user"); ("ARTIFACTORY_KEY", "env-key");
              ("ARTIFACTORY_BASE", "https://env.example/artifactory")]
    (PyList []) PyNone.

Definition no_cache : ArtifactoryRepo.class_attrs := {|
  ArtifactoryRepo._artifactory_user := None;
  ArtifactoryRepo._artifactory_key := None;
  ArtifactoryRepo._artifactory_base := None
|}.

Definition cache : ArtifactoryRepo.class_attrs := {|
  ArtifactoryRepo._artifactory_user := Some "cached-user";
  ArtifactoryRepo._artifactory_key := Some "cached-key";
  ArtifactoryRepo._artifactory_base := Some "https://cache.example/artifactory"
|}.

Definition image_at (repo : string) : Image := {|
  get_image := repo ++ "/busybox:latest";
  get_image_repo := repo;
  get_image_name := "busybox";
  get_tag := "latest"
|}.

Definition artifactory_self : ArtifactoryRepo.t := {|
  ArtifactoryRepo.image := image_at "repo.artifactory.example.com/team/images";
  ArtifactoryRepo.artifactory_user := Some "cached-user";
  ArtifactoryRepo.artifactory_key := Some "cached-key";
  ArtifactoryRepo.artifactory_base := Some "https://cache.example/artifactory";
  ArtifactoryRepo.own_artifactory_user := None;
  ArtifactoryRepo.own_artifactory_key := None;
  ArtifactoryRepo.own_artifactory_base := None
|}.

Definition quay_self : QuayRepo.t :=
  QuayRepo.__init__ (image_at "quay.io/operators").

Definition docker_self : DockerRepo.t :=
  DockerRepo.__init__ quiet (image_at "docker.io/library") None None.

End Examples.

(** ** Definitions used by the further properties *)

(** The attribute [_artifactory_*] of the instance itself, per credential. *)
Definition own_attr (c : credential) (self : ArtifactoryRepo.t)
  : option (option string) :=
  match c with
  | User => ArtifactoryRepo.own_artifactory_user self
  | Key => ArtifactoryRepo.own_artifactory_key self
  | Base => ArtifactoryRepo.own_artifactory_base self
  end.

(** The attributes of an instance of the record view, as a store: for
    each credential the attribute [artifactory_*] and, when the instance has
    one, the attribute [_artifactory_*] assigned just before it. *)
Definition attributes_of (c : credential) (self : ArtifactoryRepo.t)
  : ArtifactoryRepo.attrs :=
  (public c, field c self) ::
  match own_attr c self with
  | Some v => [(private c, v)]
  | None => []
  end.

Definition instance_store (self : ArtifactoryRepo.t) : ArtifactoryRepo.attrs :=
  (attributes_of Base self ++ attributes_of Key self
   ++ attributes_of User self)%list.

(** A statement that leaves the attributes of the class as they are. *)
Definition keeps_class {A} (m : ArtifactoryRepo.stmt A) : Prop :=
  forall s, ArtifactoryRepo.of_class (snd (m s)) = ArtifactoryRepo.of_class s.

(** An explicit argument as the constructor sees it: one that is not truthy
    counts as not given. *)
Definition given (x : option string) : option string :=
  if Py.truthy x then x else None.

(** The argument vector [["/bin/bash", "-c", cmd]]. *)
Definition bash_c (cmd : string) : list string := ["/bin/bash"; "-c"; cmd].

(** Further worlds. *)
Module Cases.

(** The registry answers every request with the given status, text and
    body; the tool prints [stdout] and [parse] is what [json.loads] makes
    of any text. *)
Definition world (status : Z) (body_text : string) (body : result pyval)
    (parse : result pyval) : World := {|
  environ := [];
  requests_get := fun _ =>
    Return {| status_code := status; text := body_text; json := body |};
  stat_sha256 := fun _ _ => Raise (Exn FileNotFoundError (PyString "404"));
  path_open := fun _ _ => Raise (Exn RuntimeError (PyString "503"));
  run_stdout := fun argv => "";
  json_loads := fun _ => parse;
  decode_utf8 := fun s => Return s
|}.

Definition denied : World :=
  world 403 "Unauthorized" (Raise (Exn JSONDecodeError PyNone))
    (Raise (Exn JSONDecodeError (PyString "Expecting value"))).

Definition no_tags : World :=
  world 200 "{}" (Return (PyDict [])) (Return (PyDict [])).

Definition crowded : World :=
  world 200 ""
    (Return (PyDict [("tags", PyList [Examples.tag_entry true "sha256:aa";
                                      Examples.tag_entry false "sha256:bb"])]))
    (Return PyNone).



End Cases.

(* ===================================================================== *)
(** * Properties *)
(* ===================================================================== *)

(** ** Strings: [split] and [join] against the plain readings *)

Section SplitJoin.

Import PyStr.
Variable c : ascii.

Lemma split_inhabited (s : string) :
  split c s = first (split c s) :: from1 (split c s).
Proof.
  induction s as [|a s IH]; simpl.
  - reflexivity.
  - destruct (Ascii.eqb a c); [reflexivity|].
    rewrite IH. reflexivity.
Qed.

Lemma split_String (a : ascii) (s : string) :
  split c (String a s) =
  if Ascii.eqb a c then "" :: split c s
  else String a (first (split c s)) :: from1 (split c s).
Proof.
  simpl. destruct (Ascii.eqb a c); [reflexivity|].
  rewrite (split_inhabited s). reflexivity.
Qed.

Lemma join_cons (sep x : string) (l : list string) :
  l <> [] -> join sep (x :: l) = x ++ sep ++ join sep l.
Proof. destruct l; [congruence | reflexivity]. Qed.

Lemma split_not_nil (s : string) : split c s <> [].
Proof. rewrite split_inhabited. discriminate. Qed.

(** Joining the pieces with the separator gives the string back. *)
Lemma join_split (s : string) : join (String c "") (split c s) = s.
Proof.
  induction s as [|a s IH].
  - reflexivity.
  - rewrite split_String. destruct (Ascii.eqb_spec a c) as [->|Hne].
    + rewrite join_cons by apply split_not_nil. rewrite IH. reflexivity.
    + rewrite (split_inhabited s) in IH.
      destruct (from1 (split c s)) as [|y ys] eqn:E.
      * simpl in *. now rewrite IH.
      * rewrite join_cons in IH by discriminate.
        rewrite join_cons by discriminate.
        simpl. f_equal. exact IH.
Qed.

(** [s.split(c)[0]] is the part of [s] before the first [c]. *)
Lemma first_split (s : string) : first (split c s) = before_first c s.
Proof.
  induction s as [|a s IH]; [reflexivity|].
  rewrite split_String. simpl.
  destruct (Ascii.eqb a c); simpl; [reflexivity | now rewrite IH].
Qed.

(** [c.join(s.split(c)[1:])] is the part of [s] after the first [c]. *)
Lemma join_from1_split (s : string) :
  join (String c "") (from1 (split c s)) = after_first c s.
Proof.
  induction s as [|a s IH]; [reflexivity|].
  rewrite split_String. simpl.
  destruct (Ascii.eqb a c); simpl; [apply join_split | exact IH].
Qed.

(** The two readings cut [s] at its first [c]. *)
Lemma before_after_first (s : string) :
  occurs c s = true ->
  s = before_first c s ++ String c (after_first c s).
Proof.
  induction s as [|a s IH]; simpl; [discriminate|].
  destruct (Ascii.eqb_spec a c) as [->|Hne]; simpl; intros H.
  - reflexivity.
  - f_equal. now apply IH.
Qed.

Lemma before_first_free (s : string) : occurs c (before_first c s) = false.
Proof.
  induction s as [|a s IH]; simpl; [reflexivity|].
  destruct (Ascii.eqb a c) eqn:E; simpl; [reflexivity|].
  now rewrite E.
Qed.

Lemma before_first_all (s : string) :
  occurs c s = false -> before_first c s = s /\ after_first c s = "".
Proof.
  induction s as [|a s IH]; simpl; [now split|].
  destruct (Ascii.eqb a c); simpl; [discriminate|].
  intros H. destruct (IH H) as [-> ->]. now split.
Qed.

End SplitJoin.

(** ** Credentials of the artifact store *)

Section Credentials.

Import ArtifactoryRepo.

Lemma truthy_Some (x : option string) :
  Py.truthy x = true -> exists s, x = Some s /\ s <> "".
Proof.
  destruct x as [s|]; simpl; [|discriminate].
  intros H. exists s. split; [reflexivity|].
  intros ->. discriminate.
Qed.

Lemma in_environ_getenv env k :
  in_environ env k = true -> exists v, os_getenv env k = Some v.
Proof.
  unfold in_environ. destruct (os_getenv env k) as [v|]; [eauto | discriminate].
Qed.

Lemma init_resolve w cls img b u k :
  __init__ w cls img b u k =
  (user <- resolve w u (_artifactory_user cls) "ARTIFACTORY_USER" no_user ;;
   key <- resolve w k (_artifactory_key cls) "ARTIFACTORY_KEY" no_key ;;
   base <- resolve w b (_artifactory_base cls) "ARTIFACTORY_BASE" no_base ;;
   Return {| image := img;
             artifactory_user := fst user;
             artifactory_key := fst key;
             artifactory_base := fst base;
             own_artifactory_user := snd user;
             own_artifactory_key := snd key;
             own_artifactory_base := snd base |}).
Proof. reflexivity. Qed.

Lemma resolve_Return w e c var msg :
  has_source w e c var = true ->
  exists v own, resolve w e c var msg = Return (Some v, own)
    /\ (Py.truthy e = true -> e = Some v)
    /\ (Py.truthy e = false -> Py.truthy c = true -> c = Some v)
    /\ (Py.truthy e = false -> Py.truthy c = false ->
        os_getenv (environ w) var = Some v).
Proof.
  unfold has_source, resolve, getattr_. intros H.
  destruct (Py.truthy e) eqn:He.
  - destruct (truthy_Some _ He) as (s & -> & _).
    exists s, None. repeat split; congruence.
  - destruct (Py.truthy c) eqn:Hc.
    + destruct (truthy_Some _ Hc) as (s & -> & _).
      exists s, None. repeat split; congruence.
    + simpl in H. rewrite H.
      destruct (in_environ_getenv _ _ H) as (v & Hv).
      exists v, (Some (Some v)). rewrite Hv. repeat split; congruence.
Qed.

Lemma resolve_Raise w e c var msg :
  has_source w e c var = false ->
  resolve w e c var msg = Raise (Exn MissingCredentials (PyString msg)).
Proof.
  unfold has_source, resolve, getattr_. intros H.
  apply orb_false_iff in H as [H H3]. apply orb_false_iff in H as [H1 H2].
  now rewrite H1, H2, H3.
Qed.

Lemma resolve_inv w e c var msg r :
  resolve w e c var msg = Return r ->
  has_source w e c var = true /\ exists v, fst r = Some v.
Proof.
  intros H. destruct (has_source w e c var) eqn:Hs.
  - split; [reflexivity|].
    destruct (resolve_Return w e c var msg Hs) as (v & own & Hr & _).
    rewrite Hr in H. injection H as <-. now exists v.
  - rewrite (resolve_Raise _ _ _ _ _ Hs) in H. discriminate.
Qed.

End Credentials.

Section Precedence.

Import ArtifactoryRepo.

Lemma resolve_resolved w cls b u k c v own :
  resolve w (explicit b u k c) (cached cls c) (variable c) (message c)
    = Return (v, own) ->
  resolved w cls b u k c v.
Proof.
  intros H. destruct (resolve_inv _ _ _ _ _ _ H) as [Hs _].
  destruct (resolve_Return w _ _ _ (message c) Hs) as (x & own' & Hr & H1 & H2 & H3).
  rewrite Hr in H. injection H as <- <-.
  repeat split; intros.
  - symmetry; now apply H1.
  - symmetry; now apply H2.
  - symmetry; now apply H3.
Qed.

(** The outcome of the constructor, case by case. *)
Lemma init_outcome w cls img b u k :
  match __init__ w cls img b u k with
  | Return self =>
      image self = img /\
      forall c, sourced w cls b u k c = true /\
                resolved w cls b u k c (field c self) /\
                exists v, field c self = Some v
  | Raise e =>
      exists c, sourced w cls b u k c = false /\
                (forall c', In c' (earlier c) -> sourced w cls b u k c' = true) /\
                e = Exn MissingCredentials (PyString (message c))
  end.
Proof.
  rewrite init_resolve.
  destruct (resolve w u _ "ARTIFACTORY_USER" no_user) as [[vu ou]|e] eqn:Eu.
  2:{ exists User. simpl.
      destruct (has_source w u (_artifactory_user cls) "ARTIFACTORY_USER") eqn:Hs.
      - destruct (resolve_Return w _ _ _ no_user Hs) as (? & ? & Hr & _). congruence.
      - rewrite (resolve_Raise _ _ _ _ no_user Hs) in Eu.
        injection Eu as <-. unfold sourced. simpl. rewrite Hs. intuition. }
  simpl.
  destruct (resolve w k _ "ARTIFACTORY_KEY" no_key) as [[vk ok]|e] eqn:Ek.
  2:{ exists Key. simpl.
      destruct (has_source w k (_artifactory_key cls) "ARTIFACTORY_KEY") eqn:Hs.
      - destruct (resolve_Return w _ _ _ no_key Hs) as (? & ? & Hr & _). congruence.
      - rewrite (resolve_Raise _ _ _ _ no_key Hs) in Ek.
        injection Ek as <-. unfold sourced. simpl. rewrite Hs.
        split; [reflexivity|]. split; [|reflexivity].
        intros c' [<-|[]]. simpl. now apply (resolve_inv _ _ _ _ _ _ Eu). }
  simpl.
  destruct (resolve w b _ "ARTIFACTORY_BASE" no_base) as [[vb ob]|e] eqn:Eb.
  2:{ exists Base. simpl.
      destruct (has_source w b (_artifactory_base cls) "ARTIFACTORY_BASE") eqn:Hs.
      - destruct (resolve_Return w _ _ _ no_base Hs) as (? & ? & Hr & _). congruence.
      - rewrite (resolve_Raise _ _ _ _ no_base Hs) in Eb.
        injection Eb as <-. unfold sourced. simpl. rewrite Hs.
        split; [reflexivity|]. split; [|reflexivity].
        intros c' [<-|[<-|[]]]; simpl.
        + now apply (resolve_inv _ _ _ _ _ _ Eu).
        + now apply (resolve_inv _ _ _ _ _ _ Ek). }
  simpl. split; [reflexivity|].
  intros [| |]; (split; [unfold sourced; simpl | split]).
  - now apply (resolve_inv _ _ _ _ _ _ Eu).
  - apply (resolve_resolved w cls b u k User _ _ Eu).
  - apply (resolve_inv _ _ _ _ _ _ Eu).
  - now apply (resolve_inv _ _ _ _ _ _ Ek).
  - apply (resolve_resolved w cls b u k Key _ _ Ek).
  - apply (resolve_inv _ _ _ _ _ _ Ek).
  - now apply (resolve_inv _ _ _ _ _ _ Eb).
  - apply (resolve_resolved w cls b u k Base _ _ Eb).
  - apply (resolve_inv _ _ _ _ _ _ Eb).
Qed.

Lemma init_succeeds w cls img b u k :
  (forall c, sourced w cls b u k c = true) ->
  exists self, __init__ w cls img b u k = Return self.
Proof.
  intros H. pose proof (init_outcome w cls img b u k) as Ho.
  destruct (__init__ w cls img b u k) as [self|e]; [now exists self|].
  destruct Ho as (c & Hc & _). rewrite H in Hc. discriminate.
Qed.

Lemma credential_outcome_raise w cls img b u k c :
  sourced w cls b u k c = false ->
  exists c', __init__ w cls img b u k
             = Raise (Exn MissingCredentials (PyString (message c'))).
Proof.
  intros Hc. pose proof (init_outcome w cls img b u k) as Ho.
  destruct (__init__ w cls img b u k) as [self|e].
  - destruct Ho as [_ Ho]. destruct (Ho c) as [Hs _]. congruence.
  - destruct Ho as (c' & _ & _ & ->). now exists c'.
Qed.

(** C4. For each of the three credentials of the artifact store: an explicit
    argument that is given is the value the instance uses, whatever the
    cache and the environment hold; without an explicit argument a cached
    value that is set is the one used, whatever the environment holds;
    construction succeeds as soon as every credential has a source; and when
    a credential has no source at all, construction raises
    [MissingCredentials] with the message of a credential that has none,
    which is that very credential when the ones resolved before it have a
    source.  Each message names the variable of its credential. *)
Theorem credential_precedence w cls img b u k (c : credential) :
  (forall self, __init__ w cls img b u k = Return self ->
     Py.truthy (explicit b u k c) = true ->
     field c self = explicit b u k c) /\
  (forall self, __init__ w cls img b u k = Return self ->
     Py.truthy (explicit b u k c) = false ->
     Py.truthy (cached cls c) = true ->
     field c self = cached cls c) /\
  ((forall c', sourced w cls b u k c' = true) ->
     exists self, __init__ w cls img b u k = Return self) /\
  (sourced w cls b u k c = false ->
     exists c', sourced w cls b u k c' = false /\
       __init__ w cls img b u k
         = Raise (Exn MissingCredentials (PyString (message c'))) /\
       PyStr.contains (variable c') (message c') = true /\
       ((forall d, In d (earlier c) -> sourced w cls b u k d = true) -> c' = c)).
Proof.
  pose proof (init_outcome w cls img b u k) as Ho.
  repeat split.
  - intros self E Ht. rewrite E in Ho. destruct Ho as [_ Ho].
    destruct (Ho c) as (_ & (H1 & _) & _). now apply H1.
  - intros self E Ht Hc. rewrite E in Ho. destruct Ho as [_ Ho].
    destruct (Ho c) as (_ & (_ & H2 & _) & _). now apply H2.
  - apply init_succeeds.
  - intros Hc. destruct (__init__ w cls img b u k) as [self|e].
    + destruct Ho as [_ Ho]. destruct (Ho c) as [Hs _]. congruence.
    + destruct Ho as (c' & Hc' & Hearlier & ->).
      exists c'. repeat split; trivial.
      * now destruct c'.
      * intros Hbefore.
        destruct c, c'; simpl in *; trivial;
          try (rewrite Hbefore in Hc' by auto; discriminate);
          try (rewrite Hearlier in Hc by auto; discriminate).
Qed.

End Precedence.

(** ** Lookup paths of the artifact store *)

Section LookupPaths.

Import ArtifactoryRepo.

Lemma artifactory_repo_words (self : t) :
  _get_artifactory_repo self =
  PyStr.before_first "." (get_image_repo (image self))
  ++ "/" ++ PyStr.after_first "/" (get_image_repo (image self)).
Proof.
  unfold _get_artifactory_repo.
  now rewrite first_split, (join_from1_split "/").
Qed.

Lemma join_path (base repo name tag leaf : string) :
  join_items "/" [Some base; Some repo; Some name; Some tag; Some leaf]
  = Return (base ++ "/" ++ repo ++ "/" ++ name ++ "/" ++ tag ++ "/" ++ leaf).
Proof. reflexivity. Qed.

Lemma append_assoc (a b c : string) : (a ++ b) ++ c = a ++ b ++ c.
Proof. induction a as [|x a IH]; simpl; [reflexivity | now rewrite IH]. Qed.

(** C8. For an adapter the constructor has returned, the path looked up for
    the single-image digest is the base, the part of the repository host
    before its first dot, the part of the repository host after its first
    slash, the image name, the tag and [manifest.json], joined by slashes;
    the path looked up for the manifest-list digest is the same with
    [list.manifest.json] last; and these are the paths whose stored hash the
    two digest queries read. *)
Theorem artifactory_lookup_paths w cls img b u k self :
  __init__ w cls img b u k = Return self ->
  exists base,
    artifactory_base self = Some base /\
    manifestpath self = Return (spec_path base img "manifest.json") /\
    listpath self = Return (spec_path base img "list.manifest.json") /\
    _get_raw_image_digest w self =
      try_except
        (stat_sha256 w (spec_path base img "manifest.json")
           (artifactory_user self, artifactory_key self))
        [ (FileNotFoundError, fun e => Raise (ExnOf ManifestNotFound e)) ] /\
    _get_raw_manifest_list_digest w self =
      try_except
        (stat_sha256 w (spec_path base img "list.manifest.json")
           (artifactory_user self, artifactory_key self))
        [ (FileNotFoundError, fun e => Raise (ExnOf ManifestListNotFound e)) ].
Proof.
  intros E. pose proof (init_outcome w cls img b u k) as Ho.
  rewrite E in Ho. destruct Ho as [Himg Ho].
  destruct (Ho Base) as (_ & _ & base & Hbase). simpl in Hbase.
  exists base. split; [exact Hbase|].
  assert (Hm : forall leaf,
    join_items "/" [ artifactory_base self; Some (_get_artifactory_repo self);
                     Some (get_image_name (image self));
                     Some (get_tag (image self)); Some leaf ]
    = Return (spec_path base img leaf)).
  { intros leaf. rewrite Hbase, join_path, artifactory_repo_words, Himg.
    unfold spec_path. now rewrite append_assoc. }
  unfold _get_raw_image_digest, _get_raw_manifest_list_digest,
    manifestpath, listpath.
  rewrite !Hm. simpl. repeat split.
Qed.

End LookupPaths.

(** Witness of [credential_precedence]: with the three sources set, the
    explicit user wins; with cache and environment set, the cached key
    wins; with no source at all, construction raises [MissingCredentials]
    naming the user. *)
Lemma credential_precedence_witness :
  (ArtifactoryRepo.artifactory_user
     {| ArtifactoryRepo.image := Examples.image_at "repo.artifactory.example.com/team";
        ArtifactoryRepo.artifactory_user := Some "explicit-user";
        ArtifactoryRepo.artifactory_key := Some "cached-key";
        ArtifactoryRepo.artifactory_base := Some "https://cache.example/artifactory";
        ArtifactoryRepo.own_artifactory_user := None;
        ArtifactoryRepo.own_artifactory_key := None;
        ArtifactoryRepo.own_artifactory_base := None |}
   = Some "explicit-user")
  /\
  (ArtifactoryRepo.artifactory_key
     {| ArtifactoryRepo.image := Examples.image_at "repo.artifactory.example.com/team";
        ArtifactoryRepo.artifactory_user := Some "explicit-user";
        ArtifactoryRepo.artifactory_key := Some "cached-key";
        ArtifactoryRepo.artifactory_base := Some "https://cache.example/artifactory";
        ArtifactoryRepo.own_artifactory_user := None;
        ArtifactoryRepo.own_artifactory_key := None;
        ArtifactoryRepo.own_artifactory_base := None |}
   = Some "cached-key")
  /\
  (exists c,
     ArtifactoryRepo.__init__ Examples.quiet Examples.no_cache
       (Examples.image_at "repo.artifactory.example.com/team") None None None
     = Raise (Exn MissingCredentials (PyString (message c)))
     /\ c = User).
Proof.
  split; [|split].
  - destruct (credential_precedence Examples.with_env Examples.cache
                (Examples.image_at "repo.artifactory.example.com/team")
                None (Some "explicit-user") None User) as (H & _).
    apply (H _ eq_refl eq_refl).
  - destruct (credential_precedence Examples.with_env Examples.cache
                (Examples.image_at "repo.artifactory.example.com/team")
                None (Some "explicit-user") None Key) as (_ & H & _).
    apply (H _ eq_refl eq_refl eq_refl).
  - destruct (credential_precedence Examples.quiet Examples.no_cache
                (Examples.image_at "repo.artifactory.example.com/team")
                None None None User) as (_ & _ & _ & H).
    destruct (H eq_refl) as (c & _ & E & _ & Hc).
    exists c. split; [exact E|]. apply Hc. intros d [].
Defined.

(** Witness of [artifactory_lookup_paths]. *)
Lemma artifactory_lookup_paths_witness :
  exists base,
    ArtifactoryRepo.artifactory_base Examples.artifactory_self = Some base /\
    ArtifactoryRepo.manifestpath Examples.artifactory_self
      = Return (spec_path base
                  (Examples.image_at "repo.artifactory.example.com/team/images")
                  "manifest.json").
Proof.
  destruct (artifactory_lookup_paths Examples.quiet Examples.cache
              (Examples.image_at "repo.artifactory.example.com/team/images")
              None None None Examples.artifactory_self eq_refl)
    as (base & H1 & H2 & _).
  exists base. split; assumption.
Defined.

(** The path of the witness, spelled out. *)
Example artifactory_path_example :
  ArtifactoryRepo.manifestpath Examples.artifactory_self
  = Return "https://cache.example/artifactory/repo/team/images/busybox/latest/manifest.json".
Proof. reflexivity. Qed.

(** ** The cached default *)

Section CachedDefault.

Import ArtifactoryRepo.

Lemma keeps_class_seq {A B} (m : stmt A) (k : A -> stmt B) :
  keeps_class m -> (forall a, keeps_class (k a)) -> keeps_class (seq m k).
Proof.
  intros Hm Hk s. unfold seq. specialize (Hm s).
  destruct (m s) as [[a|e] s']; simpl in *; [|exact Hm].
  now rewrite Hk.
Qed.

Lemma keeps_class_read name : keeps_class (read_self name).
Proof. now intros s. Qed.

Lemma keeps_class_assign name v : keeps_class (assign_self name v).
Proof. now intros s. Qed.

Lemma keeps_class_raise {A} e : keeps_class (@raise A e).
Proof. now intros s. Qed.

Lemma init_statements_keep_class w b u k :
  keeps_class (init_statements w b u k).
Proof.
  unfold init_statements.
  repeat first
    [ apply keeps_class_seq; [|intros ?]
    | apply keeps_class_read
    | apply keeps_class_assign
    | apply keeps_class_raise
    | match goal with |- keeps_class (if ?c then _ else _) => destruct c end ].
Qed.

(** Whatever the arguments, the environment and the attributes of the class,
    the class has the same attributes after a construction as before. *)
Lemma construct_keeps_class w cls img b u k :
  snd (construct w cls img b u k) = cls.
Proof.
  unfold construct.
  pose proof (init_statements_keep_class w b u k
                {| of_class := cls; of_self := [] |}) as H.
  destruct (init_statements w b u k _) as [[x|e] s]; exact H.
Qed.

(** The statement-by-statement constructor and [__init__] agree. *)
Lemma construct_agrees w cls img b u k :
  fst (construct w (class_store cls) img b u k) =
  match __init__ w cls img b u k with
  | Return self => Return (img, instance_store self)
  | Raise e => Raise e
  end.
Proof.
  unfold construct, init_statements, __init__, seq, read_self, assign_self,
    raise, getattr, setattr, class_store, instance_store, attributes_of,
    getattr_.
  cbn -[Py.truthy in_environ os_getenv].
  destruct (Py.truthy u); cbn -[Py.truthy in_environ os_getenv];
  [| destruct (Py.truthy (_artifactory_user cls));
     cbn -[Py.truthy in_environ os_getenv];
     [| destruct (in_environ (environ w) "ARTIFACTORY_USER");
        cbn -[Py.truthy in_environ os_getenv]; [|reflexivity] ] ].
  all: destruct (Py.truthy k); cbn -[Py.truthy in_environ os_getenv];
  [| destruct (Py.truthy (_artifactory_key cls));
     cbn -[Py.truthy in_environ os_getenv];
     [| destruct (in_environ (environ w) "ARTIFACTORY_KEY");
        cbn -[Py.truthy in_environ os_getenv]; [|reflexivity] ] ].
  all: destruct (Py.truthy b); cbn -[Py.truthy in_environ os_getenv];
  [| destruct (Py.truthy (_artifactory_base cls));
     cbn -[Py.truthy in_environ os_getenv];
     [| destruct (in_environ (environ w) "ARTIFACTORY_BASE");
        cbn -[Py.truthy in_environ os_getenv]; [|reflexivity] ] ].
  all: reflexivity.
Qed.

Lemma find_public (c : credential) (self : t) :
  find (public c) (instance_store self) = Some (field c self).
Proof.
  unfold instance_store, attributes_of.
  destruct c; simpl;
    destruct (own_artifactory_base self), (own_artifactory_key self);
    reflexivity.
Qed.

(** C5 on the code.  Let an adapter be constructed, from any arguments and
    any environment, in a process where the class attribute of a credential
    is not set, so that the adapter resolves that credential from its
    explicit argument or from the environment.  The adapter holds the
    resolved value, but the class has the same attributes after the
    construction as before; and an adapter constructed next in that
    process, with no explicit argument and with the variable of the
    credential absent from the environment, raises [MissingCredentials]
    where the claim has it succeed with the value resolved before. *)
Theorem resolved_credential_is_not_shared
    w w' cls img img' b u k (c : credential) inst :
  fst (construct w (class_store cls) img b u k) = Return (img, inst) ->
  Py.truthy (cached cls c) = false ->
  in_environ (environ w') (variable c) = false ->
  (exists v, find (public c) inst = Some (Some v)) /\
  snd (construct w (class_store cls) img b u k) = class_store cls /\
  exists e,
    fst (construct w' (snd (construct w (class_store cls) img b u k))
           img' None None None) = Raise e /\
    class_of e = MissingCredentials.
Proof.
  intros Hfirst Hcached Henv.
  rewrite construct_agrees in Hfirst.
  pose proof (init_outcome w cls img b u k) as Ho.
  destruct (__init__ w cls img b u k) as [self|e]; [|discriminate].
  injection Hfirst as <-. destruct Ho as [_ Ho].
  split.
  { destruct (Ho c) as (_ & _ & v & Hv). exists v.
    now rewrite find_public, Hv. }
  rewrite construct_keeps_class. split; [reflexivity|].
  rewrite construct_agrees.
  assert (Hs : sourced w' cls None None None c = false).
  { unfold sourced, has_source. destruct c; simpl in *;
      now rewrite Hcached, Henv. }
  destruct (credential_outcome_raise w' cls img' None None None c Hs)
    as (c' & ->).
  eexists. split; reflexivity.
Qed.

End CachedDefault.

(** Witness: the first adapter takes its credentials from the environment,
    the variables are then gone, and the second adapter fails. *)
Lemma resolved_credential_is_not_shared_witness :
  exists e,
    fst (ArtifactoryRepo.construct Examples.quiet
           (snd (ArtifactoryRepo.construct Examples.with_env
                   (ArtifactoryRepo.class_store Examples.no_cache)
                   (Examples.image_at "repo.artifactory.example.com/team/images")
                   None None None))
           (Examples.image_at "repo.artifactory.example.com/team/images")
           None None None) = Raise e /\
    class_of e = MissingCredentials.
Proof.
  destruct (resolved_credential_is_not_shared Examples.with_env Examples.quiet
              Examples.no_cache
              (Examples.image_at "repo.artifactory.example.com/team/images")
              (Examples.image_at "repo.artifactory.example.com/team/images")
              None None None User _ eq_refl eq_refl eq_refl)
    as (_ & _ & H).
  exact H.
Defined.

(** The two constructions of the witness, evaluated: the first adapter
    holds the values of the environment, on itself; the class is as the
    class body left it; the second construction raises. *)
Example environment_values_are_not_shared :
  ArtifactoryRepo.construct Examples.with_env ArtifactoryRepo.class_body
    (Examples.image_at "repo.artifactory.example.com/team/images") None None None
  = (Return (Examples.image_at "repo.artifactory.example.com/team/images",
             [("artifactory_base", Some "https://env.example/artifactory");
              ("_artifactory_base", Some "https://env.example/artifactory");
              ("artifactory_key", Some "env-key");
              ("_artifactory_key", Some "env-key");
              ("artifactory_user", Some "env-user");
              ("_artifactory_user", Some "env-user")]),
     ArtifactoryRepo.class_body)
  /\
  ArtifactoryRepo.construct Examples.quiet ArtifactoryRepo.class_body
    (Examples.image_at "repo.artifactory.example.com/team/images") None None None
  = (Raise (Exn MissingCredentials (PyString ArtifactoryRepo.no_user)),
     ArtifactoryRepo.class_body).
Proof. split; reflexivity. Qed.

(** Arguments given explicitly are not shared either: the first adapter
    resolves its three credentials from its arguments, and the next one,
    built with no argument and no environment, raises
    [MissingCredentials]. *)
Example explicit_values_are_not_shared :
  ArtifactoryRepo.__init__ Examples.quiet Examples.no_cache
    (Examples.image_at "repo.artifactory.example.com/team/images")
    (Some "https://given.example/artifactory") (Some "given-user") (Some "given-key")
  = Return {| ArtifactoryRepo.image :=
                Examples.image_at "repo.artifactory.example.com/team/images";
              ArtifactoryRepo.artifactory_user := Some "given-user";
              ArtifactoryRepo.artifactory_key := Some "given-key";
              ArtifactoryRepo.artifactory_base := Some "https://given.example/artifactory";
              ArtifactoryRepo.own_artifactory_user := None;
              ArtifactoryRepo.own_artifactory_key := None;
              ArtifactoryRepo.own_artifactory_base := None |}
  /\
  ArtifactoryRepo.__init__ Examples.quiet Examples.no_cache
    (Examples.image_at "repo.artifactory.example.com/team/images") None None None
  = Raise (Exn MissingCredentials (PyString ArtifactoryRepo.no_user)).
Proof. split; reflexivity. Qed.

(** A value read from the environment lands in [self._artifactory_user],
    an attribute of the instance; the attribute of the class stays as it
    was, so an adapter built afterwards without the environment fails. *)
Example environment_value_stays_on_instance :
  ArtifactoryRepo.__init__ Examples.with_env Examples.no_cache
    (Examples.image_at "repo.artifactory.example.com/team/images") None None None
  = Return {| ArtifactoryRepo.image :=
                Examples.image_at "repo.artifactory.example.com/team/images";
              ArtifactoryRepo.artifactory_user := Some "env-user";
              ArtifactoryRepo.artifactory_key := Some "env-key";
              ArtifactoryRepo.artifactory_base := Some "https://env.example/artifactory";
              ArtifactoryRepo.own_artifactory_user := Some (Some "env-user");
              ArtifactoryRepo.own_artifactory_key := Some (Some "env-key");
              ArtifactoryRepo.own_artifactory_base :=
                Some (Some "https://env.example/artifactory") |}
  /\
  ArtifactoryRepo.__init__ Examples.quiet Examples.no_cache
    (Examples.image_at "repo.artifactory.example.com/team/images") None None None
  = Raise (Exn MissingCredentials (PyString ArtifactoryRepo.no_user)).
Proof. split; reflexivity. Qed.

(** ** Selection of the adapter *)

Section Selection.

Import ImageRepo.

(** C1, as the code has it.  The substring test comes first: a host that
    contains [artifactory] gets the artifact-store adapter (or the
    [MissingCredentials] its constructor raises), also when it starts with
    a known prefix; a host without the marker that starts with [quay.io/]
    gets the registry-API adapter; a host with neither that starts with
    [docker.io] gets the CLI-inspection adapter; any other host raises
    [RepoTypeNotImplemented]. *)
Theorem facade_selection w cls img :
  (PyStr.contains "artifactory" (get_image_repo img) = true ->
     __init__ w cls img =
       (r <- ArtifactoryRepo.__init__ w cls img None None None ;;
        Return {| image := img; image_repo := Artifactory r |})
     /\ match __init__ w cls img with
        | Return self => exists r, image_repo self = Artifactory r
        | Raise e => class_of e = MissingCredentials
        end) /\
  (PyStr.contains "artifactory" (get_image_repo img) = false ->
   PyStr.startswith (get_image_repo img) "quay.io/" = true ->
     __init__ w cls img =
       Return {| image := img; image_repo := Quay (QuayRepo.__init__ img) |}) /\
  (PyStr.contains "artifactory" (get_image_repo img) = false ->
   PyStr.startswith (get_image_repo img) "quay.io/" = false ->
   PyStr.startswith (get_image_repo img) "docker.io" = true ->
     __init__ w cls img =
       Return {| image := img;
                 image_repo := Docker (DockerRepo.__init__ w img None None) |}) /\
  (PyStr.contains "artifactory" (get_image_repo img) = false ->
   PyStr.startswith (get_image_repo img) "quay.io/" = false ->
   PyStr.startswith (get_image_repo img) "docker.io" = false ->
     exists msg, __init__ w cls img
                 = Raise (Exn RepoTypeNotImplemented (PyString msg))).
Proof.
  unfold __init__. repeat split.
  - now rewrite H.
  - rewrite H.
    pose proof (init_outcome w cls img None None None) as Ho.
    destruct (ArtifactoryRepo.__init__ w cls img None None None) as [r|e]; simpl.
    + now exists r.
    + destruct Ho as (c & _ & _ & ->). reflexivity.
  - intros H1 H2. now rewrite H1, H2.
  - intros H1 H2 H3. now rewrite H1, H2, H3.
  - intros H1 H2 H3. rewrite H1, H2, H3. eauto.
Qed.

End Selection.

(** Witness of [facade_selection]: a host with the marker. *)
Lemma facade_selection_witness :
  exists r,
    ImageRepo.__init__ Examples.quiet Examples.cache
      (Examples.image_at "repo.artifactory.example.com/team/images")
    = Return {| ImageRepo.image :=
                  Examples.image_at "repo.artifactory.example.com/team/images";
                ImageRepo.image_repo := ImageRepo.Artifactory r |}.
Proof.
  destruct (facade_selection Examples.quiet Examples.cache
              (Examples.image_at "repo.artifactory.example.com/team/images"))
    as (H & _).
  destruct (H eq_refl) as [E _].
  exists Examples.artifactory_self. rewrite E. reflexivity.
Defined.

(** C1 fails as stated: this host starts with the prefix [quay.io/] and
    contains the marker, and the facade builds the artifact-store adapter
    for it, not the registry-API adapter. *)
Lemma facade_selection_counterexample :
  PyStr.startswith (get_image_repo (Examples.image_at "quay.io/artifactory"))
    "quay.io/" = true
  /\ ImageRepo.__init__ Examples.quiet Examples.cache
       (Examples.image_at "quay.io/artifactory")
     = Return {| ImageRepo.image := Examples.image_at "quay.io/artifactory";
                 ImageRepo.image_repo :=
                   ImageRepo.Artifactory
                     {| ArtifactoryRepo.image := Examples.image_at "quay.io/artifactory";
                        ArtifactoryRepo.artifactory_user := Some "cached-user";
                        ArtifactoryRepo.artifactory_key := Some "cached-key";
                        ArtifactoryRepo.artifactory_base :=
                          Some "https://cache.example/artifactory";
                        ArtifactoryRepo.own_artifactory_user := None;
                        ArtifactoryRepo.own_artifactory_key := None;
                        ArtifactoryRepo.own_artifactory_base := None |} |}.
Proof. split; reflexivity. Qed.

(** ** The registry-API adapter *)

Section RegistryAPI.

Import QuayRepo.

Variable w : World.
Variable self : t.
Variable manifest_list : bool.

(** After a response with status 200 whose body has a [tags] member. *)
Lemma get_digest_200 resp doc tags :
  requests_get w (url self ++ get_tag (image self)) = Return resp ->
  status_code resp = 200%Z ->
  json resp = Return doc ->
  Py.getitem doc "tags" = Return tags ->
  _get_digest w self manifest_list =
    (n <- Py.len tags ;;
     if Z.ltb 1 n then
       Raise (ExnFormat Exception "Expected 1 tag, found {}. {}" [PyInt n; tags])
     else ts <- Py.iter tags ;; for_tags self manifest_list ts).
Proof.
  intros Hr Hs Hj Ht. unfold _get_digest.
  rewrite Hr. simpl. rewrite Hs. simpl. rewrite Hj. simpl. rewrite Ht.
  reflexivity.
Qed.

(** C7. On a 200 response whose [tags] list has exactly one entry with a
    boolean [is_manifest_list]: when the flag equals the request the query
    returns the [manifest_digest] of the entry; when it differs, a
    list-digest request raises [ManifestListNotFound] and a single-image
    request raises [ManifestNotFound]. *)
Theorem quay_single_entry resp doc entry flag :
  requests_get w (url self ++ get_tag (image self)) = Return resp ->
  status_code resp = 200%Z ->
  json resp = Return doc ->
  Py.getitem doc "tags" = Return (PyList [entry]) ->
  Py.getitem entry "is_manifest_list" = Return (PyBool flag) ->
  (flag = manifest_list ->
     forall digest, Py.getitem entry "manifest_digest" = Return digest ->
       _get_digest w self manifest_list = Return digest) /\
  (flag <> manifest_list ->
     exists msg,
       _get_digest w self manifest_list
         = Raise (Exn (not_found manifest_list) (PyString msg))).
Proof.
  intros Hr Hs Hj Ht Hf.
  rewrite (get_digest_200 resp doc _ Hr Hs Hj Ht). simpl. rewrite Hf. simpl.
  split.
  - intros -> digest Hd. now rewrite Bool.eqb_reflx.
  - intros Hne. destruct (Bool.eqb flag manifest_list) eqn:E.
    + apply Bool.eqb_prop in E. contradiction.
    + unfold not_found. destruct manifest_list; eauto.
Qed.

(** C6, first half, on the code: on a 200 response whose [tags] list is
    empty the loop body never runs and the query returns [None], for a
    list-digest request and for a single-image request alike; nothing is
    raised. *)
Theorem quay_no_entry_returns_None resp doc :
  requests_get w (url self ++ get_tag (image self)) = Return resp ->
  status_code resp = 200%Z ->
  json resp = Return doc ->
  Py.getitem doc "tags" = Return (PyList []) ->
  _get_digest w self manifest_list = Return PyNone.
Proof.
  intros Hr Hs Hj Ht.
  now rewrite (get_digest_200 resp doc _ Hr Hs Hj Ht).
Qed.

(** C6, second half: with two entries or more the query raises and returns
    no digest. *)
Lemma quay_several_entries_raise resp doc e1 e2 rest :
  requests_get w (url self ++ get_tag (image self)) = Return resp ->
  status_code resp = 200%Z ->
  json resp = Return doc ->
  Py.getitem doc "tags" = Return (PyList (e1 :: e2 :: rest)) ->
  exists e, _get_digest w self manifest_list = Raise e /\
            class_of e = Exception.
Proof.
  intros Hr Hs Hj Ht.
  rewrite (get_digest_200 resp doc _ Hr Hs Hj Ht).
  cbn [Py.len bind List.length].
  replace (Z.ltb 1 (Z.of_nat (S (S (List.length rest))))) with true.
  - eexists. split; reflexivity.
  - symmetry. apply Z.ltb_lt. lia.
Qed.

(** The statuses other than 200. *)
Lemma get_digest_status resp :
  requests_get w (url self ++ get_tag (image self)) = Return resp ->
  status_code resp <> 200%Z ->
  exists e, _get_digest w self manifest_list = Raise e /\
    class_of e =
      if Z.eqb (status_code resp) 403 then MissingCredentials
      else if Z.eqb (status_code resp) 404 then not_found manifest_list
      else Exception.
Proof.
  intros Hr Hs. unfold _get_digest. rewrite Hr. simpl.
  destruct (Z.eqb (status_code resp) 403); [eauto|].
  destruct (Z.eqb (status_code resp) 404).
  { unfold not_found. destruct manifest_list; eauto. }
  destruct (Z.eqb_spec (status_code resp) 200); [contradiction|].
  simpl. eauto.
Qed.

(** Where a returned string comes from: the [manifest_digest] member of the
    one entry of the response. *)
Lemma get_digest_provenance d :
  _get_digest w self manifest_list = Return (PyString d) ->
  exists resp doc tags entry,
    requests_get w (url self ++ get_tag (image self)) = Return resp /\
    status_code resp = 200%Z /\
    json resp = Return doc /\
    Py.getitem doc "tags" = Return tags /\
    Py.iter tags = Return [entry] /\
    Py.getitem entry "manifest_digest" = Return (PyString d).
Proof.
  unfold _get_digest.
  destruct (requests_get w _) as [resp|e] eqn:Hr; simpl; [|discriminate].
  destruct (Z.eqb (status_code resp) 403); [discriminate|].
  destruct (Z.eqb (status_code resp) 404).
  { destruct manifest_list; discriminate. }
  destruct (Z.eqb_spec (status_code resp) 200) as [Hs|]; simpl; [|discriminate].
  destruct (json resp) as [doc|e] eqn:Hj; simpl; [|discriminate].
  destruct (Py.getitem doc "tags") as [tags|e] eqn:Ht; simpl; [|discriminate].
  destruct (Py.len tags) as [n|e] eqn:Hn; simpl; [|discriminate].
  destruct (Z.ltb_spec 1 n) as [|Hle]; [discriminate|].
  destruct (Py.iter tags) as [ts|e] eqn:Hi; simpl; [|discriminate].
  intros H. exists resp, doc, tags.
  assert (Hlen : Z.of_nat (List.length ts) = n).
  { destruct tags; simpl in Hn, Hi; try discriminate;
      injection Hn as <-; injection Hi as <-; trivial.
    - f_equal. clear. induction s; simpl; congruence.
    - now rewrite length_map. }
  destruct ts as [|entry [|e2 rest]]; simpl in H, Hlen.
  - discriminate.
  - exists entry. repeat split; trivial.
    destruct (Py.getitem entry "is_manifest_list") as [flag|e]; simpl in H;
      [|discriminate].
    destruct (Py.eq_bool flag manifest_list); [exact H|].
    destruct manifest_list; discriminate.
  - lia.
Qed.

End RegistryAPI.

(** ** Traces *)

Section Traces.

Context {A B : Type}.

Lemma tbind_lift_Return (r : result A) (k : A -> traced B) (a : A) :
  r = Return a -> tbind (lift r) k = k a.
Proof. intros ->. unfold lift. simpl. now destruct (k a). Qed.

Lemma tbind_lift_Raise (r : result A) (k : A -> traced B) e :
  r = Raise e -> tbind (lift r) k = ([], Raise e).
Proof. now intros ->. Qed.

Lemma tbind_run w argv (k : string -> traced B) :
  tbind (run w argv) k =
  (Ran argv :: fst (k (run_stdout w argv)), snd (k (run_stdout w argv))).
Proof. unfold run. simpl. now destruct (k (run_stdout w argv)). Qed.

End Traces.

(** ** Substrings of concatenations *)

Lemma prefix_empty (s : string) : String.prefix "" s = true.
Proof. now destruct s. Qed.

Lemma prefix_app (p a s : string) :
  String.prefix p a = true -> String.prefix p (a ++ s) = true.
Proof.
  revert a. induction p as [|x p IH]; intros a; [intros; apply prefix_empty|].
  destruct a as [|y a]; simpl; [discriminate|].
  destruct (ascii_dec x y); [apply IH | discriminate].
Qed.

Lemma contains_app_l (p a s : string) :
  PyStr.contains p a = true -> PyStr.contains p (a ++ s) = true.
Proof.
  induction a as [|y a IH]; simpl.
  - rewrite orb_false_r. intros H. destruct p; [|discriminate].
    destruct s; reflexivity || (simpl; reflexivity).
  - intros H. apply orb_true_iff in H as [H|H].
    + apply (prefix_app _ (String y a) s) in H. simpl in H. now rewrite H.
    + rewrite (IH H). apply orb_true_r.
Qed.

Lemma contains_app_r (p a s : string) :
  PyStr.contains p s = true -> PyStr.contains p (a ++ s) = true.
Proof.
  intros H. induction a as [|y a IH]; simpl; [exact H|].
  rewrite IH. apply orb_true_r.
Qed.

(** ** The CLI-inspection adapter *)

Section CLIInspection.

Import DockerRepo.

Variable w : World.
Variable self : t.

(** C3 on the code: when the inspected subject is a manifest list and the
    single-image digest is asked for, the call runs the first inspection
    and then ends: it returns [None], which is no digest, and raises
    nothing. *)
Theorem docker_image_digest_of_list_is_None out mediaType :
  json_loads w (run_stdout w ["/bin/bash"; "-c"; raw_inspect_command self])
    = Return out ->
  Py.getitem out "mediaType" = Return mediaType ->
  Py.contains "manifest.list" mediaType = Return true ->
  get_image_digest w self
    = ([Ran ["/bin/bash"; "-c"; raw_inspect_command self]], Return PyNone).
Proof.
  intros Hj Hm Hc. unfold get_image_digest, _get_digest.
  rewrite tbind_run.
  rewrite (tbind_lift_Return _ _ _ Hj), (tbind_lift_Return _ _ _ Hm),
    (tbind_lift_Return _ _ _ Hc).
  reflexivity.
Qed.

(** The image reference reaches the three command lines of [_get_digest]
    as it is. *)
Lemma digest_commands_end_with_image :
  (exists pre, raw_inspect_command self = pre ++ get_image (image self)) /\
  (exists pre, sha_command self
               = (pre ++ get_image (image self)) ++ " | shasum -a 256") /\
  (exists pre, inspect_command self = pre ++ get_image (image self)).
Proof.
  unfold raw_inspect_command, sha_command, inspect_command.
  destruct (docker_key self) as [key|], (docker_user self) as [user|];
    repeat split; eexists;
    repeat rewrite <- append_assoc; reflexivity.
Qed.

(** Without both credentials no [--creds] option is put on the command
    lines; with both, it is. *)
Lemma digest_commands_credentials :
  (docker_key self = None \/ docker_user self = None ->
     raw_inspect_command self
       = "skopeo inspect --override-os linux --raw docker://"
         ++ get_image (image self) /\
     sha_command self
       = "skopeo inspect --override-os linux --raw docker://"
         ++ get_image (image self) ++ " | shasum -a 256" /\
     inspect_command self
       = "skopeo inspect --override-os linux docker://"
         ++ get_image (image self) /\
     raw_manifest_list_command self
       = PyStr.replace ("skopeo inspect --override-os linux --raw docker://"
                        ++ get_image (image self)) "docker.io/" "") /\
  (forall key user, docker_key self = Some key -> docker_user self = Some user ->
     raw_inspect_command self
       = "skopeo inspect --creds" ++ user ++ ":" ++ key
         ++ " --override-os linux --raw docker://" ++ get_image (image self) /\
     sha_command self
       = "skopeo inspect --creds" ++ user ++ ":" ++ key
         ++ " --override-os linux --raw docker://" ++ get_image (image self)
         ++ " | shasum -a 256" /\
     inspect_command self
       = "skopeo inspect --creds" ++ user ++ ":" ++ key
         ++ " --override-os linux docker://" ++ get_image (image self) /\
     raw_manifest_list_command self
       = PyStr.replace ("skopeo inspect --creds " ++ user ++ ":" ++ key
                        ++ " --override-os linux --raw docker://"
                        ++ get_image (image self)) "docker.io/" "").
Proof.
  unfold raw_inspect_command, sha_command, inspect_command,
    raw_manifest_list_command.
  split.
  - intros [H|H]; rewrite H; [|destruct (docker_key self)]; repeat split.
  - intros key user -> ->. repeat split.
Qed.

(** One step through a lifted computation: either it returns and the rest
    runs, or it raises and the call ends. *)
Ltac case_is_list :=
  match goal with
  | E : Py.contains _ _ = Return ?b |- _ => destruct b
  end.

Ltac lift_step :=
  match goal with
  | |- context [tbind (lift ?r) ?k] =>
      let E := fresh "E" in
      destruct r eqn:E;
      [ rewrite (tbind_lift_Return _ k _ eq_refl)
      | rewrite (tbind_lift_Raise _ k _ eq_refl) ]
  end.

(** The command lines a digest query runs are among the three above, each
    handed to [/bin/bash -c]; the first one is always the raw inspection. *)
Lemma digest_log ml :
  (exists log, fst (_get_digest w self ml)
               = Ran ["/bin/bash"; "-c"; raw_inspect_command self] :: log) /\
  forall argv, In argv (commands (fst (_get_digest w self ml))) ->
    exists cmd, argv = ["/bin/bash"; "-c"; cmd] /\
      In cmd [raw_inspect_command self; sha_command self; inspect_command self].
Proof.
  unfold _get_digest. rewrite tbind_run. cbn [fst]. split; [eauto|].
  intros argv. cbn [commands flat_map app].
  intros [<-|H]; [eexists; split; [reflexivity | now left]|].
  revert H.
  repeat (lift_step; cbn [fst commands flat_map]; try contradiction).
  case_is_list.
  - destruct ml.
    + rewrite tbind_run. cbn [fst commands flat_map app].
      intros [<-|H]; [eexists; split; [reflexivity | simpl; tauto]|].
      revert H. lift_step; cbn [fst lift commands flat_map]; contradiction.
    + cbn [fst lift commands flat_map]. contradiction.
  - rewrite tbind_run. cbn [fst commands flat_map app].
    intros [<-|H]; [eexists; split; [reflexivity | simpl; tauto]|].
    revert H. lift_step; cbn [fst lift commands flat_map]; try contradiction.
    destruct ml; cbn [fst lift commands flat_map]; contradiction.
Qed.

(** C9 on the code: a digest query hands the image reference to the tool
    with its [docker.io/] prefix in place.  The first command it runs is
    the raw inspection of the reference as given, and when the reference
    contains [docker.io/], so does each of the three command lines of
    [_get_digest]. *)
Theorem docker_digest_keeps_hub_prefix ml :
  (exists log, fst (_get_digest w self ml)
               = Ran ["/bin/bash"; "-c"; raw_inspect_command self] :: log) /\
  (exists pre, raw_inspect_command self = pre ++ get_image (image self)) /\
  (PyStr.contains "docker.io/" (get_image (image self)) = true ->
     PyStr.contains "docker.io/" (raw_inspect_command self) = true /\
     PyStr.contains "docker.io/" (sha_command self) = true /\
     PyStr.contains "docker.io/" (inspect_command self) = true).
Proof.
  destruct digest_commands_end_with_image as ((p1 & E1) & (p2 & E2) & (p3 & E3)).
  split; [apply digest_log|]. split; [now exists p1|].
  intros H. rewrite E1, E2, E3. repeat split.
  - now apply contains_app_r.
  - apply contains_app_l. now apply contains_app_r.
  - now apply contains_app_r.
Qed.

(** Where the digests of this adapter come from. *)
Lemma docker_list_digest_provenance log v :
  get_manifest_list_digest w self = (log, Return v) ->
  exists text,
    decode_utf8 w (run_stdout w ["/bin/bash"; "-c"; sha_command self])
      = Return text /\
    v = PyString ("sha256:" ++ PyStr.first (PyStr.split " " text)).
Proof.
  unfold get_manifest_list_digest, _get_digest. rewrite tbind_run.
  repeat (lift_step; [|cbn; discriminate]).
  case_is_list.
  - rewrite tbind_run. lift_step; [|cbn; discriminate].
    cbn. intros H. injection H as _ <-. now eexists.
  - rewrite tbind_run. lift_step; cbn; discriminate.
Qed.

Lemma docker_image_digest_provenance log d :
  get_image_digest w self = (log, Return (PyString d)) ->
  exists out,
    json_loads w (run_stdout w ["/bin/bash"; "-c"; inspect_command self])
      = Return out /\
    Py.getitem out "Digest" = Return (PyString d).
Proof.
  unfold get_image_digest, _get_digest. rewrite tbind_run.
  repeat (lift_step; [|cbn; discriminate]).
  case_is_list.
  - cbn. discriminate.
  - rewrite tbind_run. lift_step; [|cbn; discriminate].
    cbn. intros H. injection H as _ H. now eexists.
Qed.

End CLIInspection.

(** ** The artifact-store adapter: where the digests come from *)

Section ArtifactStore.

Import ArtifactoryRepo.

Variable w : World.
Variable self : t.

Lemma try_except_Return_inv {A} (r : result A) hs (a : A) :
  (forall C h e, In (C, h) hs -> exists e', h e = Raise e') ->
  try_except r hs = Return a -> r = Return a.
Proof.
  intros Hh. destruct r as [x|e]; simpl; [trivial|].
  induction hs as [|[C h] hs IH]; simpl; [discriminate|].
  destruct (is_subclass (class_of e) C).
  - destruct (Hh C h e (or_introl eq_refl)) as (e' & ->). discriminate.
  - apply IH. intros C' h' e0 Hin. apply (Hh C' h' e0). now right.
Qed.

Lemma artifactory_image_digest_provenance v :
  get_image_digest w self = Return v ->
  exists path h,
    manifestpath self = Return path /\
    stat_sha256 w path (artifactory_user self, artifactory_key self) = Return h /\
    v = PyString ("sha256:" ++ Py.str h).
Proof.
  unfold get_image_digest, _get_raw_image_digest.
  destruct (manifestpath self) as [path|e]; simpl; [|discriminate].
  destruct (try_except _ _) as [h|e] eqn:E; simpl; [|discriminate].
  intros H. injection H as <-. exists path, h. repeat split.
  apply (try_except_Return_inv _ _ _) in E; [exact E|].
  intros C hd e [H|[]]. injection H as _ <-. eauto.
Qed.

Lemma artifactory_list_digest_provenance v :
  get_manifest_list_digest w self = Return v ->
  exists path h,
    listpath self = Return path /\
    stat_sha256 w path (artifactory_user self, artifactory_key self) = Return h /\
    v = PyString ("sha256:" ++ Py.str h).
Proof.
  unfold get_manifest_list_digest, _get_raw_manifest_list_digest.
  destruct (listpath self) as [path|e]; simpl; [|discriminate].
  destruct (try_except _ _) as [h|e] eqn:E; simpl; [|discriminate].
  intros H. injection H as <-. exists path, h. repeat split.
  apply (try_except_Return_inv _ _ _) in E; [exact E|].
  intros C hd e [H|[]]. injection H as _ <-. eauto.
Qed.

End ArtifactStore.

Lemma sha256_shape (h : string) :
  PyStr.is_sha256_digest ("sha256:" ++ h) = PyStr.is_hex64 h.
Proof. reflexivity. Qed.

(** ** Shape of the digests *)

(** C2, as the code has it.  No adapter checks what the backend supplies.
    A digest of the artifact-store adapter is [sha256:] followed by the hash
    the store reports for the looked-up path; the manifest-list digest of
    the CLI-inspection adapter is [sha256:] followed by the first
    space-separated field of the hashing pipeline's output; a string
    returned by the registry-API adapter is the [manifest_digest] member of
    the one entry of the response, and a string returned as single-image
    digest by the CLI-inspection adapter is the [Digest] member of the
    tool's output, both as they are.  And [sha256:] followed by [h] has the
    digest shape exactly when [h] is 64 lowercase hexadecimal characters. *)
Theorem digest_provenance (w : World) :
  (forall self v,
     ArtifactoryRepo.get_image_digest w self = Return v ->
     exists path h,
       ArtifactoryRepo.manifestpath self = Return path /\
       stat_sha256 w path (ArtifactoryRepo.artifactory_user self,
                           ArtifactoryRepo.artifactory_key self) = Return h /\
       v = PyString ("sha256:" ++ Py.str h)) /\
  (forall self v,
     ArtifactoryRepo.get_manifest_list_digest w self = Return v ->
     exists path h,
       ArtifactoryRepo.listpath self = Return path /\
       stat_sha256 w path (ArtifactoryRepo.artifactory_user self,
                           ArtifactoryRepo.artifactory_key self) = Return h /\
       v = PyString ("sha256:" ++ Py.str h)) /\
  (forall self manifest_list d,
     QuayRepo._get_digest w self manifest_list = Return (PyString d) ->
     exists resp doc tags entry,
       requests_get w (QuayRepo.url self ++ get_tag (QuayRepo.image self))
         = Return resp /\
       status_code resp = 200%Z /\
       json resp = Return doc /\
       Py.getitem doc "tags" = Return tags /\
       Py.iter tags = Return [entry] /\
       Py.getitem entry "manifest_digest" = Return (PyString d)) /\
  (forall self log v,
     DockerRepo.get_manifest_list_digest w self = (log, Return v) ->
     exists text,
       decode_utf8 w
         (run_stdout w ["/bin/bash"; "-c"; DockerRepo.sha_command self])
         = Return text /\
       v = PyString ("sha256:" ++ PyStr.first (PyStr.split " " text))) /\
  (forall self log d,
     DockerRepo.get_image_digest w self = (log, Return (PyString d)) ->
     exists out,
       json_loads w
         (run_stdout w ["/bin/bash"; "-c"; DockerRepo.inspect_command self])
         = Return out /\
       Py.getitem out "Digest" = Return (PyString d)) /\
  (forall h, PyStr.is_sha256_digest ("sha256:" ++ h) = PyStr.is_hex64 h).
Proof.
  repeat apply conj.
  - apply artifactory_image_digest_provenance.
  - apply artifactory_list_digest_provenance.
  - intros self ml d. apply get_digest_provenance.
  - intros self. apply docker_list_digest_provenance.
  - intros self. apply docker_image_digest_provenance.
  - apply sha256_shape.
Qed.

(** Witness of [digest_provenance]: the store reports a well-formed hash
    and the digest returned is well formed. *)
Lemma digest_provenance_witness :
  exists path h,
    ArtifactoryRepo.manifestpath Examples.artifactory_self = Return path /\
    stat_sha256 Examples.quiet path (Some "cached-user", Some "cached-key")
      = Return h /\
    PyString ("sha256:" ++ Examples.hex64) = PyString ("sha256:" ++ Py.str h).
Proof.
  destruct (digest_provenance Examples.quiet) as (H & _).
  apply (H Examples.artifactory_self (PyString ("sha256:" ++ Examples.hex64))).
  reflexivity.
Defined.

(** C2 fails as stated: the registry answers with an entry whose
    [manifest_digest] is not a SHA-256 digest and the adapter returns it. *)
Lemma digest_shape_counterexample :
  QuayRepo.get_image_digest Examples.plain Examples.quay_self
    = Return (PyString "md5:0f343b0931126a20f133d67c2b018a3b")
  /\ PyStr.is_sha256_digest "md5:0f343b0931126a20f133d67c2b018a3b" = false.
Proof. split; reflexivity. Qed.

(** ** Raw manifest lists through the facade *)

(** C10. When the facade holds the registry-API adapter, asking it for the
    raw manifest list raises [AttributeError], whatever the backend would
    answer: the class of the adapter has no such method.  [AttributeError]
    is none of the four error kinds the module defines, and nothing is
    sent to the backend. *)
Theorem quay_raw_manifest_list_unsupported w cls img self r (w' : World) :
  ImageRepo.__init__ w cls img = Return self ->
  ImageRepo.image_repo self = ImageRepo.Quay r ->
  exists e,
    ImageRepo.get_raw_manifest_list w' self = ([], Raise e) /\
    class_of e = AttributeError /\
    in_taxonomy (class_of e) = false.
Proof.
  intros _ Hr. unfold ImageRepo.get_raw_manifest_list, ImageRepo.call.
  rewrite Hr. simpl. eexists. repeat split.
Qed.

(** Witness of [quay_raw_manifest_list_unsupported]. *)
Lemma quay_raw_manifest_list_unsupported_witness :
  exists e,
    ImageRepo.get_raw_manifest_list Examples.listed
      {| ImageRepo.image := Examples.image_at "quay.io/operators";
         ImageRepo.image_repo := ImageRepo.Quay Examples.quay_self |}
      = ([], Raise e) /\
    class_of e = AttributeError /\
    in_taxonomy (class_of e) = false.
Proof.
  apply (quay_raw_manifest_list_unsupported Examples.quiet Examples.no_cache
           (Examples.image_at "quay.io/operators") _ Examples.quay_self
           Examples.listed eq_refl eq_refl).
Defined.

(** Witness of [quay_single_entry]: scenario B of the specification. *)
Lemma quay_single_entry_witness :
  QuayRepo._get_digest Examples.listed Examples.quay_self true
    = Return (PyString ("sha256:" ++ Examples.hex64))
  /\ exists msg,
       QuayRepo._get_digest Examples.listed Examples.quay_self false
         = Raise (Exn ManifestNotFound (PyString msg)).
Proof.
  split.
  - refine (proj1 (quay_single_entry Examples.listed Examples.quay_self true
                     _ _ _ true eq_refl eq_refl eq_refl eq_refl eq_refl)
              eq_refl _ eq_refl).
  - refine (proj2 (quay_single_entry Examples.listed Examples.quay_self false
                     _ _ _ true eq_refl eq_refl eq_refl eq_refl eq_refl) _).
    discriminate.
Defined.

(** Witness of [quay_no_entry_returns_None]. *)
Lemma quay_no_entry_returns_None_witness :
  QuayRepo.get_manifest_list_digest Examples.quiet Examples.quay_self
    = Return PyNone
  /\ QuayRepo.get_image_digest Examples.quiet Examples.quay_self
    = Return PyNone.
Proof.
  split.
  - exact (quay_no_entry_returns_None Examples.quiet Examples.quay_self true
             _ _ eq_refl eq_refl eq_refl eq_refl).
  - exact (quay_no_entry_returns_None Examples.quiet Examples.quay_self false
             _ _ eq_refl eq_refl eq_refl eq_refl).
Defined.

(** Witness of [docker_image_digest_of_list_is_None]. *)
Lemma docker_image_digest_of_list_is_None_witness :
  DockerRepo.get_image_digest Examples.quiet Examples.docker_self
  = ([Ran ["/bin/bash"; "-c";
           "skopeo inspect --override-os linux --raw docker://docker.io/library/busybox:latest"]],
     Return PyNone).
Proof.
  exact (docker_image_digest_of_list_is_None Examples.quiet Examples.docker_self
           _ _ eq_refl eq_refl eq_refl).
Defined.

(** Witness of [docker_digest_keeps_hub_prefix]: the reference
    [docker.io/library/busybox:latest] reaches the tool unchanged. *)
Lemma docker_digest_keeps_hub_prefix_witness :
  PyStr.contains "docker.io/" (DockerRepo.raw_inspect_command Examples.docker_self)
    = true /\
  PyStr.contains "docker.io/" (DockerRepo.sha_command Examples.docker_self)
    = true /\
  PyStr.contains "docker.io/" (DockerRepo.inspect_command Examples.docker_self)
    = true.
Proof.
  destruct (docker_digest_keeps_hub_prefix Examples.quiet Examples.docker_self false)
    as (_ & _ & H).
  apply H. reflexivity.
Defined.

(** The sibling path: the reference of the same image as
    [get_raw_manifest_list] hands it to the tool, prefix removed. *)
Example raw_manifest_list_strips_hub_prefix :
  DockerRepo.raw_manifest_list_command Examples.docker_self
  = "skopeo inspect --override-os linux --raw docker://library/busybox:latest".
Proof. reflexivity. Qed.

(* ===================================================================== *)
(** * Further properties of the adapters *)
(* ===================================================================== *)

(** ** [replace] on strings with and without an occurrence *)

Section Replace.

Import PyStr.

Lemma replace_from_skip (old new x s : string) :
  replace_from old new (String.length x) (x ++ s) = replace_from old new 0 s.
Proof.
  induction x as [|a x IH]; simpl; [|exact IH].
  destruct s; reflexivity.
Qed.

Lemma prefix_self_app (p s : string) : String.prefix p (p ++ s) = true.
Proof.
  induction p as [|a p IH]; simpl; [apply prefix_empty|].
  destruct (ascii_dec a a); [exact IH | congruence].
Qed.

(** An occurrence at the head is replaced and the scan goes on behind it. *)
Lemma replace_head (old new s : string) :
  old <> "" -> replace (old ++ s) old new = new ++ replace s old new.
Proof.
  unfold replace. destruct old as [|a o]; [congruence|]. intros _.
  pose proof (prefix_self_app (String a o) s) as P.
  cbn [append] in *. cbn [replace_from]. rewrite P.
  cbn [String.length]. now rewrite replace_from_skip.
Qed.

(** Without an occurrence the string comes back as it is. *)
Lemma replace_absent (old new s : string) :
  contains old s = false -> replace s old new = s.
Proof.
  unfold replace. induction s as [|a s IH]; simpl.
  - destruct old; [discriminate | reflexivity].
  - intros H. apply orb_false_iff in H as [H1 H2].
    rewrite H1. now rewrite IH.
Qed.

(** A character that starts no occurrence is kept. *)
Lemma replace_keep (old new : string) (a : ascii) (s : string) :
  String.prefix old (String a s) = false ->
  replace (String a s) old new = String a (replace s old new).
Proof. unfold replace. cbn [replace_from]. now intros ->. Qed.

End Replace.

(** ** The request of the registry-API adapter *)

Section QuayRequest.

Import QuayRepo.

(** X1. For a repository host [quay.io/<org>] whose [<org>] part holds no
    further [quay.io/], the adapter asks
    [https://quay.io/api/v1/repository/<org>/<name>/tag/?onlyActiveTags=true&specificTag=<tag>],
    and a failure of the HTTP client on that address comes out of both
    digest queries unchanged. *)
Theorem quay_request_url (self : t) (org : string) :
  get_image_repo (image self) = "quay.io/" ++ org ->
  PyStr.contains "quay.io/" org = false ->
  _get_quay_repo self = org ++ "/" ++ get_image_name (image self) /\
  url self ++ get_tag (image self)
    = "https://quay.io/api/v1/repository/" ++ org ++ "/"
      ++ get_image_name (image self)
      ++ "/tag/?onlyActiveTags=true&specificTag=" ++ get_tag (image self) /\
  forall w manifest_list e,
    requests_get w
      ("https://quay.io/api/v1/repository/" ++ org ++ "/"
       ++ get_image_name (image self)
       ++ "/tag/?onlyActiveTags=true&specificTag=" ++ get_tag (image self))
      = Raise e ->
    _get_digest w self manifest_list = Raise e.
Proof.
  intros Hhost Horg.
  assert (Hrepo : _get_quay_repo self = org ++ "/" ++ get_image_name (image self)).
  { unfold _get_quay_repo. rewrite Hhost.
    rewrite (replace_head "quay.io/" "" org) by discriminate.
    now rewrite (replace_absent _ _ _ Horg). }
  assert (Hurl : url self ++ get_tag (image self)
    = "https://quay.io/api/v1/repository/" ++ org ++ "/"
      ++ get_image_name (image self)
      ++ "/tag/?onlyActiveTags=true&specificTag=" ++ get_tag (image self)).
  { unfold url. rewrite Hrepo. unfold QUAY_BASE_URL. cbn [PyStr.join].
    repeat rewrite append_assoc. reflexivity. }
  repeat split; trivial.
  intros w ml e He. unfold _get_digest. rewrite Hurl, He. reflexivity.
Qed.

End QuayRequest.

(** Witness for X1. *)
Lemma quay_request_url_witness :
  QuayRepo.url Examples.quay_self ++ "latest"
  = "https://quay.io/api/v1/repository/operators/busybox/tag/?onlyActiveTags=true&specificTag=latest".
Proof.
  destruct (quay_request_url Examples.quay_self "operators" eq_refl eq_refl)
    as (_ & H & _).
  exact H.
Defined.

(** ** Responses of the registry, case by case *)

Section QuayResponses.

Import QuayRepo.

Variable w : World.
Variable self : t.
Variable manifest_list : bool.

(** X2. A response whose status is not 200 ends the query with an error that
    carries the response text: [MissingCredentials] for 403, the not-found
    kind of the request for 404, a plain [Exception] for any other status.
    The body is not parsed. *)
Theorem quay_status_mapping resp :
  requests_get w (url self ++ get_tag (image self)) = Return resp ->
  status_code resp <> 200%Z ->
  _get_digest w self manifest_list =
    Raise (Exn (if Z.eqb (status_code resp) 403 then MissingCredentials
                else if Z.eqb (status_code resp) 404 then not_found manifest_list
                else Exception)
               (PyString (text resp))).
Proof.
  intros Hr Hs. unfold _get_digest. rewrite Hr. simpl.
  destruct (Z.eqb (status_code resp) 403); [reflexivity|].
  destruct (Z.eqb (status_code resp) 404).
  { unfold not_found. now destruct manifest_list. }
  destruct (Z.eqb_spec (status_code resp) 200); [contradiction | reflexivity].
Qed.

(** X3. A 200 response that is not an object with a sized [tags] member
    gives no digest and none of the module's own errors: a body that does
    not parse raises the parser's error, an object without [tags] raises
    [KeyError], a body that is a list raises [TypeError], and so does a
    [tags] member that is [null]. *)
Theorem quay_malformed_body resp :
  requests_get w (url self ++ get_tag (image self)) = Return resp ->
  status_code resp = 200%Z ->
  (forall e, json resp = Raise e -> _get_digest w self manifest_list = Raise e) /\
  (forall items, json resp = Return (PyDict items) ->
     Py.lookup "tags" items = None ->
     _get_digest w self manifest_list = Raise (Exn KeyError (PyString "tags"))) /\
  (forall l, json resp = Return (PyList l) ->
     _get_digest w self manifest_list = Raise (Exn TypeError (PyString "tags"))) /\
  (forall items, json resp = Return (PyDict items) ->
     Py.lookup "tags" items = Some PyNone ->
     _get_digest w self manifest_list = Raise (Exn TypeError PyNone)).
Proof.
  intros Hr Hs. unfold _get_digest. rewrite Hr. simpl. rewrite Hs. simpl.
  repeat split.
  - now intros e ->.
  - intros items -> Hl. simpl. now rewrite Hl.
  - now intros l ->.
  - intros items -> Hl. simpl. now rewrite Hl.
Qed.

(** X4. With two entries or more in [tags] the query raises an [Exception]
    built from the number of entries and the entries themselves, whatever
    the request and whatever the first entry says. *)
Theorem quay_several_entries_error resp doc e1 e2 rest :
  requests_get w (url self ++ get_tag (image self)) = Return resp ->
  status_code resp = 200%Z ->
  json resp = Return doc ->
  Py.getitem doc "tags" = Return (PyList (e1 :: e2 :: rest)) ->
  _get_digest w self manifest_list =
    Raise (ExnFormat Exception "Expected 1 tag, found {}. {}"
             [PyInt (Z.of_nat (2 + List.length rest)); PyList (e1 :: e2 :: rest)]).
Proof.
  intros Hr Hs Hj Ht.
  rewrite (get_digest_200 w self manifest_list resp doc _ Hr Hs Hj Ht).
  cbn [Py.len bind List.length].
  replace (Z.ltb 1 (Z.of_nat (S (S (List.length rest))))) with true;
    [reflexivity|].
  symmetry. apply Z.ltb_lt. lia.
Qed.


End QuayResponses.

(** ** The constructor of the artifact-store adapter, further *)

Section ArtifactoryInit.

Import ArtifactoryRepo.

Lemma resolve_own w e c var msg v own :
  resolve w e c var msg = Return (v, own) ->
  (Py.truthy e || Py.truthy c = true ->
     own = None /\ exists s, v = Some s /\ s <> "") /\
  (Py.truthy e || Py.truthy c = false ->
     own = Some v /\ os_getenv (environ w) var = v /\ exists s, v = Some s).
Proof.
  unfold resolve, getattr_.
  destruct (Py.truthy e) eqn:He; simpl.
  - intros H. injection H as <- <-. split; [|discriminate].
    intros _. split; [reflexivity|]. now apply truthy_Some.
  - destruct (Py.truthy c) eqn:Hc.
    + intros H. injection H as <- <-. split; [|discriminate].
      intros _. split; [reflexivity|]. now apply truthy_Some.
    + destruct (in_environ (environ w) var) eqn:Hi; [|discriminate].
      intros H. injection H as <- <-. split; [discriminate|].
      intros _. repeat split.
      destruct (in_environ_getenv _ _ Hi) as (s & ->). now exists s.
Qed.

(** X6. What a constructed adapter holds.  Each of the three credentials is
    a string.  One that came from the explicit argument or from the class
    attribute is not empty and leaves the instance without an attribute
    [_artifactory_*] of its own; one that came from the environment is the
    value of the variable, empty or not, and is also stored in the
    attribute [_artifactory_*] of the instance. *)
Theorem artifactory_init_invariant w cls img b u k self :
  __init__ w cls img b u k = Return self ->
  image self = img /\
  forall c, exists v,
    field c self = Some v /\
    (Py.truthy (explicit b u k c) || Py.truthy (cached cls c) = true ->
       own_attr c self = None /\ v <> "") /\
    (Py.truthy (explicit b u k c) || Py.truthy (cached cls c) = false ->
       own_attr c self = Some (Some v) /\
       os_getenv (environ w) (variable c) = Some v).
Proof.
  rewrite init_resolve.
  destruct (resolve w u _ "ARTIFACTORY_USER" no_user) as [[vu ou]|e] eqn:Eu;
    [|discriminate].
  destruct (resolve w k _ "ARTIFACTORY_KEY" no_key) as [[vk ok]|e] eqn:Ek;
    [|discriminate].
  destruct (resolve w b _ "ARTIFACTORY_BASE" no_base) as [[vb ob]|e] eqn:Eb;
    [|discriminate].
  simpl. intros H. injection H as <-. split; [reflexivity|].
  intros c.
  assert (G : forall e0 c0 var msg v own,
    resolve w e0 c0 var msg = Return (v, own) ->
    exists s, v = Some s /\
      (Py.truthy e0 || Py.truthy c0 = true -> own = None /\ s <> "") /\
      (Py.truthy e0 || Py.truthy c0 = false ->
         own = Some (Some s) /\ os_getenv (environ w) var = Some s)).
  { intros e0 c0 var msg v own Hres.
    destruct (resolve_own _ _ _ _ _ _ _ Hres) as [H1 H2].
    destruct (Py.truthy e0 || Py.truthy c0) eqn:T.
    - destruct (H1 eq_refl) as (-> & s & -> & Hs). exists s.
      repeat split; trivial; discriminate.
    - destruct (H2 eq_refl) as (-> & Hg & s & ->). exists s.
      repeat split; trivial; discriminate. }
  destruct c; simpl.
  - exact (G _ _ _ _ _ _ Eu).
  - exact (G _ _ _ _ _ _ Ek).
  - exact (G _ _ _ _ _ _ Eb).
Qed.

Lemma truthy_given (x : option string) : Py.truthy (given x) = Py.truthy x.
Proof. unfold given. destruct (Py.truthy x) eqn:E; [exact E | reflexivity]. Qed.

Lemma resolve_given w e c var msg :
  resolve w (given e) c var msg = resolve w e c var msg.
Proof.
  unfold resolve. rewrite truthy_given. unfold given.
  now destruct (Py.truthy e).
Qed.

(** X7. An explicit argument that is the empty string counts as not given:
    the constructor does the same with the arguments as they are and with
    every empty one replaced by [None]. *)
Theorem artifactory_init_empty_argument w cls img b u k :
  __init__ w cls img b u k = __init__ w cls img (given b) (given u) (given k).
Proof. rewrite !init_resolve, !resolve_given. reflexivity. Qed.

(** X8. Through the facade no explicit credential reaches the constructor:
    for a host with the [artifactory] marker the facade is built exactly
    when each of the three credentials is set on the class or present in
    the environment. *)
Theorem facade_artifactory_credentials w cls img :
  PyStr.contains "artifactory" (get_image_repo img) = true ->
  (exists self, ImageRepo.__init__ w cls img = Return self) <->
  (forall c, Py.truthy (cached cls c)
             || in_environ (environ w) (variable c) = true).
Proof.
  intros Hm. unfold ImageRepo.__init__. rewrite Hm.
  pose proof (init_outcome w cls img None None None) as Ho.
  destruct (__init__ w cls img None None None) as [r|e]; simpl.
  - split; [|eauto]. intros _ c. destruct Ho as [_ Ho].
    destruct (Ho c) as (Hs & _). now destruct c.
  - split; [intros (self & H); discriminate|].
    intros H. destruct Ho as (c & Hc & _).
    specialize (H c). destruct c; unfold sourced, has_source in Hc;
      simpl in Hc, H; congruence.
Qed.

End ArtifactoryInit.

(** Witness for X6: credentials read from the environment. *)
Lemma artifactory_init_invariant_witness :
  exists v,
    Some "env-user" = Some v /\
    os_getenv (environ Examples.with_env) "ARTIFACTORY_USER" = Some v.
Proof.
  destruct (artifactory_init_invariant Examples.with_env Examples.no_cache
              (Examples.image_at "repo.artifactory.example.com/team")
              None None None _ eq_refl) as (_ & H).
  destruct (H User) as (v & Hv & _ & Henv).
  exists v. split; [exact Hv|]. now apply Henv.
Defined.

(** Witness for X8: a marker host over a cache that is set. *)
Lemma facade_artifactory_credentials_witness :
  exists self,
    ImageRepo.__init__ Examples.quiet Examples.cache
      (Examples.image_at "repo.artifactory.example.com/team") = Return self.
Proof.
  apply (facade_artifactory_credentials Examples.quiet Examples.cache
           (Examples.image_at "repo.artifactory.example.com/team") eq_refl).
  intros [| |]; reflexivity.
Defined.

(** ** Queries of the artifact-store adapter, outcome by outcome *)

Section ArtifactoryQueries.

Import ArtifactoryRepo.

Variable w : World.
Variable self : t.

(** No class of the model derives from [FileNotFoundError]. *)
Lemma subclass_FileNotFoundError (c : exn_class) :
  is_subclass c FileNotFoundError = class_eqb c FileNotFoundError.
Proof. unfold is_subclass. apply orb_false_r. Qed.

(** X9. The two digest queries against the store.  A hash reported for the
    looked-up path is returned behind [sha256:]; a [FileNotFoundError] of
    the store becomes [ManifestNotFound] for the single-image query and
    [ManifestListNotFound] for the list query, each holding the original
    error; any other error of the store, a [RuntimeError] included, comes
    out as it is. *)
Theorem artifactory_digest_outcome mpath lpath :
  manifestpath self = Return mpath ->
  listpath self = Return lpath ->
  let auth := (artifactory_user self, artifactory_key self) in
  (forall h, stat_sha256 w mpath auth = Return (Some h) ->
     get_image_digest w self = Return (PyString ("sha256:" ++ h))) /\
  (forall h, stat_sha256 w lpath auth = Return (Some h) ->
     get_manifest_list_digest w self = Return (PyString ("sha256:" ++ h))) /\
  (forall e, stat_sha256 w mpath auth = Raise e ->
     get_image_digest w self =
       if class_eqb (class_of e) FileNotFoundError
       then Raise (ExnOf ManifestNotFound e) else Raise e) /\
  (forall e, stat_sha256 w lpath auth = Raise e ->
     get_manifest_list_digest w self =
       if class_eqb (class_of e) FileNotFoundError
       then Raise (ExnOf ManifestListNotFound e) else Raise e).
Proof.
  intros Hm Hl auth.
  unfold get_image_digest, get_manifest_list_digest,
    _get_raw_image_digest, _get_raw_manifest_list_digest.
  rewrite Hm, Hl. simpl. fold auth.
  repeat split.
  - now intros h ->.
  - now intros h ->.
  - intros e ->. simpl. rewrite subclass_FileNotFoundError.
    now destruct (class_eqb (class_of e) FileNotFoundError).
  - intros e ->. simpl. rewrite subclass_FileNotFoundError.
    now destruct (class_eqb (class_of e) FileNotFoundError).
Qed.

(** X10. Reading the raw manifest list from the store.  The file opened is
    the one the list-digest query looks up.  When it opens, its content is
    read, decoded and parsed, and a failure of any of the three steps comes
    out as it is, a [FileNotFoundError] or [RuntimeError] of the read
    included.  When opening raises [FileNotFoundError], [RuntimeError] or a
    subclass of it ([NotImplementedError], [RecursionError]) the call
    raises [ManifestListNotFound] holding the original error; any other
    error on opening comes out as it is. *)
Theorem artifactory_raw_manifest_list_outcome lpath :
  listpath self = Return lpath ->
  let auth := (artifactory_user self, artifactory_key self) in
  (forall f, path_open w lpath auth = Return f ->
     get_raw_manifest_list w self =
       (content <- read f ;;
        text <- decode_utf8 w content ;;
        json_loads w text)) /\
  (forall f e, path_open w lpath auth = Return f -> read f = Raise e ->
     get_raw_manifest_list w self = Raise e) /\
  (forall e, path_open w lpath auth = Raise e ->
     In (class_of e) [FileNotFoundError; RuntimeError;
                      NotImplementedError; RecursionError] ->
     get_raw_manifest_list w self = Raise (ExnOf ManifestListNotFound e)) /\
  (forall e, path_open w lpath auth = Raise e ->
     ~ In (class_of e) [FileNotFoundError; RuntimeError;
                        NotImplementedError; RecursionError] ->
     get_raw_manifest_list w self = Raise e).
Proof.
  intros Hl auth. unfold get_raw_manifest_list. rewrite Hl. simpl. fold auth.
  repeat split.
  - now intros f ->.
  - intros f e -> He. simpl. now rewrite He.
  - intros e -> Hc. simpl.
    destruct (class_of e); simpl in Hc; try reflexivity;
      exfalso; intuition discriminate.
  - intros e -> Hc. simpl.
    destruct (class_of e); simpl in Hc; try reflexivity;
      exfalso; apply Hc; tauto.
Qed.

End ArtifactoryQueries.

(** ** The repository segment of the lookup path *)

Section ArtifactoryRepoSegment.

Import PyStr.

Lemma occurs_app (c : ascii) (x y : string) :
  occurs c (x ++ y) = occurs c x || occurs c y.
Proof.
  induction x as [|a x IH]; simpl; [reflexivity|].
  now rewrite IH, orb_assoc.
Qed.

Lemma before_first_app (c : ascii) (x y : string) :
  occurs c x = false -> before_first c (x ++ String c y) = x.
Proof.
  induction x as [|a x IH]; simpl.
  - now rewrite Ascii.eqb_refl.
  - destruct (Ascii.eqb a c); simpl; [discriminate|].
    intros H. now rewrite IH.
Qed.

Lemma after_first_app (c : ascii) (x y : string) :
  occurs c x = false -> after_first c (x ++ String c y) = y.
Proof.
  induction x as [|a x IH]; simpl.
  - now rewrite Ascii.eqb_refl.
  - destruct (Ascii.eqb a c); simpl; [discriminate | exact IH].
Qed.

(** X11. The rewrite of the repository host.  For a host
    [<label>.<domain>/<path>], with no dot and no slash in the label and no
    slash in the domain, the segment is [<label>/<path>]: the domain is
    dropped.  For a host without any slash the segment is the part before
    the first dot followed by a slash, so the lookup path has an empty
    segment after it. *)
Theorem artifactory_repo_segment (self : ArtifactoryRepo.t) :
  (forall label domain path,
     get_image_repo (ArtifactoryRepo.image self)
       = label ++ "." ++ domain ++ "/" ++ path ->
     occurs "." label = false -> occurs "/" label = false ->
     occurs "/" domain = false ->
     ArtifactoryRepo._get_artifactory_repo self = label ++ "/" ++ path) /\
  (occurs "/" (get_image_repo (ArtifactoryRepo.image self)) = false ->
     ArtifactoryRepo._get_artifactory_repo self
       = before_first "." (get_image_repo (ArtifactoryRepo.image self)) ++ "/").
Proof.
  split.
  - intros label domain path Hh Hd Hs Hsd.
    rewrite artifactory_repo_words, Hh.
    change (label ++ "." ++ domain ++ "/" ++ path)
      with (label ++ String "." (domain ++ "/" ++ path)).
    rewrite (before_first_app "." label _ Hd).
    replace (label ++ String "." (domain ++ "/" ++ path))
      with ((label ++ String "." domain) ++ String "/" path).
    + rewrite after_first_app; [reflexivity|].
      rewrite occurs_app. simpl. now rewrite Hs, Hsd.
    + rewrite append_assoc. reflexivity.
  - intros H. rewrite artifactory_repo_words.
    now destruct (before_first_all "/" _ H) as [_ ->].
Qed.

End ArtifactoryRepoSegment.

(** Witness for X9: scenario A of the specification. *)
Lemma artifactory_digest_outcome_witness :
  ArtifactoryRepo.get_image_digest Examples.quiet Examples.artifactory_self
  = Return (PyString ("sha256:" ++ Examples.hex64)).
Proof.
  destruct (artifactory_digest_outcome Examples.quiet Examples.artifactory_self
              _ _ eq_refl eq_refl) as (H & _).
  apply H. reflexivity.
Defined.

(** Witness for X10. *)
Lemma artifactory_raw_manifest_list_outcome_witness :
  ArtifactoryRepo.get_raw_manifest_list Examples.listed Examples.artifactory_self
  = Return (PyDict [("mediaType", PyString Examples.list_media_type)]).
Proof.
  destruct (artifactory_raw_manifest_list_outcome Examples.listed
              Examples.artifactory_self _ eq_refl) as (H & _).
  rewrite (H _ eq_refl). reflexivity.
Defined.

(** Witness for X11. *)
Lemma artifactory_repo_segment_witness :
  ArtifactoryRepo._get_artifactory_repo Examples.artifactory_self
  = "repo/team/images".
Proof.
  destruct (artifactory_repo_segment Examples.artifactory_self) as (H & _).
  apply (H "repo" "artifactory.example.com" "team/images");
    reflexivity.
Defined.

(** ** The CLI-inspection adapter, further *)

Section DockerCredentials.

Import DockerRepo.

Variable w : World.
Variable img : Image.
Variables u k : option string.

Lemma getenv_absent env key : in_environ env key = false -> os_getenv env key = None.
Proof. unfold in_environ. now destruct (os_getenv env key). Qed.

(** X12. The constructor of the CLI-inspection adapter always yields an
    adapter.  Its user is the explicit argument when one is given, else the
    value of [DOCKER_USER], else [None]; its key likewise from
    [DOCKER_KEY].  When either is [None] the four command lines carry no
    [--creds] option; when both are strings the three command lines of the
    digest queries start with [skopeo inspect --creds<user>:<key>], the
    option and the user not separated, and the one of the raw manifest
    list is built with [--creds <user>:<key>]. *)
Theorem docker_init_credentials :
  let self := __init__ w img u k in
  image self = img /\
  docker_user self
    = (if Py.truthy u then u else os_getenv (environ w) "DOCKER_USER") /\
  docker_key self
    = (if Py.truthy k then k else os_getenv (environ w) "DOCKER_KEY") /\
  (docker_key self = None \/ docker_user self = None ->
     raw_inspect_command self
       = "skopeo inspect --override-os linux --raw docker://" ++ get_image img /\
     sha_command self
       = "skopeo inspect --override-os linux --raw docker://" ++ get_image img
         ++ " | shasum -a 256" /\
     inspect_command self
       = "skopeo inspect --override-os linux docker://" ++ get_image img /\
     raw_manifest_list_command self
       = PyStr.replace ("skopeo inspect --override-os linux --raw docker://"
                        ++ get_image img) "docker.io/" "") /\
  (forall key user, docker_key self = Some key -> docker_user self = Some user ->
     raw_inspect_command self
       = "skopeo inspect --creds" ++ user ++ ":" ++ key
         ++ " --override-os linux --raw docker://" ++ get_image img /\
     sha_command self
       = "skopeo inspect --creds" ++ user ++ ":" ++ key
         ++ " --override-os linux --raw docker://" ++ get_image img
         ++ " | shasum -a 256" /\
     inspect_command self
       = "skopeo inspect --creds" ++ user ++ ":" ++ key
         ++ " --override-os linux docker://" ++ get_image img /\
     raw_manifest_list_command self
       = PyStr.replace ("skopeo inspect --creds " ++ user ++ ":" ++ key
                        ++ " --override-os linux --raw docker://"
                        ++ get_image img) "docker.io/" "").
Proof.
  intros self.
  assert (Hi : image self = img) by reflexivity.
  assert (Hu : docker_user self
    = (if Py.truthy u then u else os_getenv (environ w) "DOCKER_USER")).
  { unfold self, __init__. simpl. destruct (Py.truthy u); [reflexivity|].
    destruct (in_environ (environ w) "DOCKER_USER") eqn:E; [reflexivity|].
    simpl. symmetry. now apply getenv_absent. }
  assert (Hk : docker_key self
    = (if Py.truthy k then k else os_getenv (environ w) "DOCKER_KEY")).
  { unfold self, __init__. simpl. destruct (Py.truthy k); [reflexivity|].
    destruct (in_environ (environ w) "DOCKER_KEY") eqn:E; [reflexivity|].
    simpl. symmetry. now apply getenv_absent. }
  pose proof (digest_commands_credentials self) as [H1 H2]. rewrite Hi in *.
  repeat split; trivial; try apply (H1 H); try apply (H2 _ _ H H0).
Qed.

End DockerCredentials.

(** Witness for X12: no argument and no variable, so no credentials. *)
Lemma docker_init_credentials_witness :
  DockerRepo.raw_inspect_command Examples.docker_self
  = "skopeo inspect --override-os linux --raw docker://"
    ++ get_image (Examples.image_at "docker.io/library").
Proof.
  destruct (docker_init_credentials Examples.quiet
              (Examples.image_at "docker.io/library") None None)
    as (_ & _ & _ & H & _).
  apply H. now left.
Defined.

(** Stepping through a traced call: a lifted computation returns and the
    rest runs, or raises and the call ends. *)
Ltac step_lifted :=
  match goal with
  | |- context [tbind (lift ?r) ?k] =>
      let E := fresh "E" in
      destruct r eqn:E;
      [ rewrite (tbind_lift_Return _ k _ eq_refl)
      | rewrite (tbind_lift_Raise _ k _ eq_refl) ]
  end.

Ltac split_is_list :=
  match goal with
  | E : Py.contains _ _ = Return ?b |- _ => destruct b
  end.

Section DockerQueries.

Import DockerRepo.

Variable w : World.
Variable self : t.

(** The digest query once the first inspection has been classified. *)
Lemma get_digest_classified ml out mediaType is_list :
  json_loads w (run_stdout w (bash_c (raw_inspect_command self))) = Return out ->
  Py.getitem out "mediaType" = Return mediaType ->
  Py.contains "manifest.list" mediaType = Return is_list ->
  _get_digest w self ml =
    if is_list then
      if ml then
        ([Ran (bash_c (raw_inspect_command self)); Ran (bash_c (sha_command self))],
         text <- decode_utf8 w (run_stdout w (bash_c (sha_command self))) ;;
         Return (PyString ("sha256:" ++ PyStr.first (PyStr.split " " text))))
      else ([Ran (bash_c (raw_inspect_command self))], Return PyNone)
    else
      ([Ran (bash_c (raw_inspect_command self)); Ran (bash_c (inspect_command self))],
       out2 <- json_loads w (run_stdout w (bash_c (inspect_command self))) ;;
       if ml then
         Raise (Exn ManifestListNotFound (PyString "Manifest List does not exist"))
       else Py.getitem out2 "Digest").
Proof.
  unfold bash_c. intros Hj Hm Hc. unfold _get_digest.
  rewrite tbind_run.
  rewrite (tbind_lift_Return _ _ _ Hj), (tbind_lift_Return _ _ _ Hm),
    (tbind_lift_Return _ _ _ Hc).
  destruct is_list.
  - destruct ml; [|reflexivity].
    rewrite tbind_run.
    destruct (decode_utf8 w _) as [text|e]; reflexivity.
  - rewrite tbind_run.
    destruct (json_loads w (run_stdout w ["/bin/bash"; "-c"; inspect_command self]))
      as [out2|e]; [|reflexivity].
    rewrite (tbind_lift_Return _ _ _ eq_refl). now destruct ml.
Qed.

(** X13. Asking for the list digest of an image that is not a manifest
    list.  The adapter runs the raw inspection, then the resolved
    inspection, and only then answers: [ManifestListNotFound] when the
    output of the second inspection parses, the error of the parser when it
    does not. *)
Theorem docker_list_digest_of_plain_image out mediaType :
  json_loads w (run_stdout w (bash_c (raw_inspect_command self))) = Return out ->
  Py.getitem out "mediaType" = Return mediaType ->
  Py.contains "manifest.list" mediaType = Return false ->
  (forall out2,
     json_loads w (run_stdout w (bash_c (inspect_command self))) = Return out2 ->
     get_manifest_list_digest w self =
       ([Ran (bash_c (raw_inspect_command self));
         Ran (bash_c (inspect_command self))],
        Raise (Exn ManifestListNotFound (PyString "Manifest List does not exist")))) /\
  (forall e,
     json_loads w (run_stdout w (bash_c (inspect_command self))) = Raise e ->
     get_manifest_list_digest w self =
       ([Ran (bash_c (raw_inspect_command self));
         Ran (bash_c (inspect_command self))],
        Raise e)).
Proof.
  intros Hj Hm Hc. unfold get_manifest_list_digest.
  rewrite (get_digest_classified true out mediaType false Hj Hm Hc).
  split; [intros out2 ->|intros e ->]; reflexivity.
Qed.

Lemma first_split_app (c : ascii) (h rest : string) :
  PyStr.occurs c h = false ->
  PyStr.first (PyStr.split c (h ++ String c rest)) = h.
Proof. intros H. rewrite first_split. now apply before_first_app. Qed.

(** X14. The list digest of a manifest list.  The adapter runs the raw
    inspection and then the inspection piped into [shasum -a 256]; when
    that prints a first field [h] followed by a space, the digest is
    [sha256:] followed by [h]; output that is not UTF-8 raises the
    decoder's error. *)
Theorem docker_list_digest_of_list out mediaType :
  json_loads w (run_stdout w (bash_c (raw_inspect_command self))) = Return out ->
  Py.getitem out "mediaType" = Return mediaType ->
  Py.contains "manifest.list" mediaType = Return true ->
  (forall h rest,
     decode_utf8 w (run_stdout w (bash_c (sha_command self)))
       = Return (h ++ String " " rest) ->
     PyStr.occurs " " h = false ->
     get_manifest_list_digest w self =
       ([Ran (bash_c (raw_inspect_command self)); Ran (bash_c (sha_command self))],
        Return (PyString ("sha256:" ++ h)))) /\
  (forall e,
     decode_utf8 w (run_stdout w (bash_c (sha_command self))) = Raise e ->
     get_manifest_list_digest w self =
       ([Ran (bash_c (raw_inspect_command self)); Ran (bash_c (sha_command self))],
        Raise e)).
Proof.
  intros Hj Hm Hc. unfold get_manifest_list_digest.
  rewrite (get_digest_classified true out mediaType true Hj Hm Hc).
  split.
  - intros h rest -> Hh. simpl. now rewrite (first_split_app " " h rest Hh).
  - now intros e ->.
Qed.

(** X15. The single-image digest of an image that is not a manifest list is
    the [Digest] member of the resolved inspection, whatever it holds; when
    the member is missing the query raises [KeyError], and the two
    inspections have been run in either case. *)
Theorem docker_image_digest_of_plain_image out mediaType out2 :
  json_loads w (run_stdout w (bash_c (raw_inspect_command self))) = Return out ->
  Py.getitem out "mediaType" = Return mediaType ->
  Py.contains "manifest.list" mediaType = Return false ->
  json_loads w (run_stdout w (bash_c (inspect_command self))) = Return out2 ->
  get_image_digest w self =
    ([Ran (bash_c (raw_inspect_command self)); Ran (bash_c (inspect_command self))],
     Py.getitem out2 "Digest") /\
  (forall items, out2 = PyDict items -> Py.lookup "Digest" items = None ->
     snd (get_image_digest w self) = Raise (Exn KeyError (PyString "Digest"))).
Proof.
  intros Hj Hm Hc Hj2. unfold get_image_digest.
  rewrite (get_digest_classified false out mediaType false Hj Hm Hc), Hj2.
  split; [reflexivity|].
  intros items -> Hl. simpl. now rewrite Hl.
Qed.

(** X16. When the output of the first inspection cannot be used, a digest
    query stops after that one command with the error as it arose: the
    parser's error when the output does not parse, [KeyError] when the
    document has no [mediaType].  Neither is turned into one of the
    module's not-found errors. *)
Theorem docker_digest_first_inspection_failure ml :
  (forall e,
     json_loads w (run_stdout w (bash_c (raw_inspect_command self))) = Raise e ->
     _get_digest w self ml = ([Ran (bash_c (raw_inspect_command self))], Raise e)) /\
  (forall items,
     json_loads w (run_stdout w (bash_c (raw_inspect_command self)))
       = Return (PyDict items) ->
     Py.lookup "mediaType" items = None ->
     _get_digest w self ml =
       ([Ran (bash_c (raw_inspect_command self))],
        Raise (Exn KeyError (PyString "mediaType")))).
Proof.
  unfold bash_c. split.
  - intros e He. unfold _get_digest. rewrite tbind_run.
    now rewrite (tbind_lift_Raise _ _ _ He).
  - intros items Hj Hl. unfold _get_digest. rewrite tbind_run.
    rewrite (tbind_lift_Return _ _ _ Hj).
    assert (E : Py.getitem (PyDict items) "mediaType"
                = Raise (Exn KeyError (PyString "mediaType"))).
    { simpl. now rewrite Hl. }
    now rewrite (tbind_lift_Raise _ _ _ E).
Qed.

(** X17. A digest query never runs more than two commands. *)
Theorem docker_digest_at_most_two_commands ml :
  (List.length (commands (fst (_get_digest w self ml))) <= 2)%nat.
Proof.
  unfold _get_digest. rewrite tbind_run. cbn [fst commands flat_map app List.length].
  repeat (step_lifted; cbn [fst commands flat_map List.length]; try lia).
  split_is_list.
  - destruct ml; [|cbn; lia].
    rewrite tbind_run. cbn [fst commands flat_map app List.length].
    step_lifted; cbn; lia.
  - rewrite tbind_run. cbn [fst commands flat_map app List.length].
    step_lifted; [|cbn; lia].
    destruct ml; cbn; lia.
Qed.

End DockerQueries.

Section DockerRawManifestList.

Import DockerRepo.

Variable w : World.
Variable self : t.

(** X18. Fetching the raw manifest list with the tool.  The call prints the
    command line and runs it, once.  It returns the parsed output exactly
    when the output parses to a document whose [mediaType] holds
    [manifest.list]; every other course (output that does not parse, no
    [mediaType], a [mediaType] of another kind or of another type) ends in
    the same [ManifestListNotFound] with the text
    [error with skopeo command]. *)
Theorem docker_raw_manifest_list_outcome :
  let cmd := raw_manifest_list_command self in
  (forall out mediaType,
     json_loads w (run_stdout w (bash_c cmd)) = Return out ->
     Py.getitem out "mediaType" = Return mediaType ->
     Py.contains "manifest.list" mediaType = Return true ->
     get_raw_manifest_list w self =
       ([Printed cmd; Ran (bash_c cmd); PrintedValue mediaType], Return out)) /\
  (exists log r,
     get_raw_manifest_list w self = (Printed cmd :: Ran (bash_c cmd) :: log, r) /\
     commands log = [] /\
     ((exists out mediaType,
         r = Return out /\
         json_loads w (run_stdout w (bash_c cmd)) = Return out /\
         Py.getitem out "mediaType" = Return mediaType /\
         Py.contains "manifest.list" mediaType = Return true)
      \/ r = Raise (Exn ManifestListNotFound
                      (PyString "error with skopeo command")))).
Proof.
  intros cmd. unfold bash_c. split.
  - intros out mt Hj Hm Hc. unfold get_raw_manifest_list. fold cmd.
    rewrite tbind_run.
    rewrite (tbind_lift_Return _ _ _ Hj), (tbind_lift_Return _ _ _ Hm).
    unfold print_value. cbn [tbind].
    rewrite (tbind_lift_Return _ _ _ Hm), (tbind_lift_Return _ _ _ Hc).
    reflexivity.
  - unfold get_raw_manifest_list. fold cmd. rewrite tbind_run.
    destruct (json_loads w (run_stdout w ["/bin/bash"; "-c"; cmd]))
      as [out|e] eqn:Hj.
    2:{ rewrite (tbind_lift_Raise _ _ _ eq_refl). cbn.
        eexists _, _. split; [reflexivity|]. split; [reflexivity | now right]. }
    rewrite (tbind_lift_Return _ _ _ eq_refl).
    destruct (Py.getitem out "mediaType") as [mt|e] eqn:Hm.
    2:{ rewrite (tbind_lift_Raise _ _ _ eq_refl). cbn.
        eexists _, _. split; [reflexivity|]. split; [reflexivity | now right]. }
    rewrite (tbind_lift_Return _ _ _ eq_refl).
    unfold print_value. cbn [tbind].
    rewrite (tbind_lift_Return _ _ _ eq_refl).
    destruct (Py.contains "manifest.list" mt) as [[|]|e] eqn:Hc.
    + rewrite (tbind_lift_Return _ _ _ eq_refl). cbn.
      eexists _, _. split; [reflexivity|]. split; [reflexivity|].
      left. now exists out, mt.
    + rewrite (tbind_lift_Return _ _ _ eq_refl). cbn.
      eexists _, _. split; [reflexivity|]. split; [reflexivity | now right].
    + rewrite (tbind_lift_Raise _ _ _ eq_refl). cbn.
      eexists _, _. split; [reflexivity|]. split; [reflexivity | now right].
Qed.

(** X19. Without credentials, for an image reference [docker.io/<rest>]
    whose [<rest>] holds no further [docker.io/], the command line of the
    raw manifest list names the image as [docker://<rest>]. *)
Theorem docker_raw_manifest_list_strips rest :
  docker_key self = None \/ docker_user self = None ->
  get_image (image self) = "docker.io/" ++ rest ->
  PyStr.contains "docker.io/" rest = false ->
  raw_manifest_list_command self
    = "skopeo inspect --override-os linux --raw docker://" ++ rest.
Proof.
  intros Hc Hi Hr.
  destruct (digest_commands_credentials self) as [H _].
  destruct (H Hc) as (_ & _ & _ & ->). rewrite Hi.
  cbn [append].
  repeat (rewrite replace_keep by reflexivity).
  change (String "d" (String "o" (String "c" (String "k" (String "e"
            (String "r" (String "." (String "i" (String "o"
            (String "/" rest))))))))))
    with ("docker.io/" ++ rest).
  rewrite (replace_head "docker.io/" "" rest) by discriminate.
  now rewrite (replace_absent _ _ _ Hr).
Qed.

End DockerRawManifestList.

(** ** Witnesses of the further properties *)

(** Witness for X2: a 403 answer. *)
Lemma quay_status_mapping_witness :
  QuayRepo._get_digest Cases.denied Examples.quay_self true
  = Raise (Exn MissingCredentials (PyString "Unauthorized")).
Proof.
  apply (quay_status_mapping Cases.denied Examples.quay_self true _ eq_refl).
  discriminate.
Defined.

(** Witness for X3: a 200 answer whose body is an empty object. *)
Lemma quay_malformed_body_witness :
  QuayRepo._get_digest Cases.no_tags Examples.quay_self false
  = Raise (Exn KeyError (PyString "tags")).
Proof.
  destruct (quay_malformed_body Cases.no_tags Examples.quay_self false _
              eq_refl eq_refl) as (_ & H & _).
  apply (H [] eq_refl eq_refl).
Defined.

(** Witness for X4: two entries. *)
Lemma quay_several_entries_error_witness :
  class_of
    (ExnFormat Exception "Expected 1 tag, found {}. {}"
       [PyInt 2; PyList [Examples.tag_entry true "sha256:aa";
                         Examples.tag_entry false "sha256:bb"]])
  = Exception
  /\ QuayRepo._get_digest Cases.crowded Examples.quay_self true
     = Raise (ExnFormat Exception "Expected 1 tag, found {}. {}"
                [PyInt 2; PyList [Examples.tag_entry true "sha256:aa";
                                  Examples.tag_entry false "sha256:bb"]]).
Proof.
  split; [reflexivity|].
  apply (quay_several_entries_error Cases.crowded Examples.quay_self true
           _ _ _ _ [] eq_refl eq_refl eq_refl eq_refl).
Defined.


(** Witness for X13: scenario C of the specification. *)
Lemma docker_list_digest_of_plain_image_witness :
  snd (DockerRepo.get_manifest_list_digest Examples.plain Examples.docker_self)
  = Raise (Exn ManifestListNotFound (PyString "Manifest List does not exist")).
Proof.
  destruct (docker_list_digest_of_plain_image Examples.plain Examples.docker_self
              _ _ eq_refl eq_refl eq_refl) as (H & _).
  rewrite (H _ eq_refl). reflexivity.
Defined.

(** Witness for X14: the hashing pipeline prints the hash, two spaces and a
    dash. *)
Lemma docker_list_digest_of_list_witness :
  snd (DockerRepo.get_manifest_list_digest Examples.listed Examples.docker_self)
  = Return (PyString ("sha256:" ++ Examples.hex64)).
Proof.
  destruct (docker_list_digest_of_list Examples.listed Examples.docker_self
              _ _ eq_refl eq_refl eq_refl) as (H & _).
  rewrite (H Examples.hex64 " -" eq_refl eq_refl). reflexivity.
Defined.

(** Witness for X15. *)
Lemma docker_image_digest_of_plain_image_witness :
  snd (DockerRepo.get_image_digest Examples.plain Examples.docker_self)
  = Return (PyString ("sha256:" ++ Examples.hex64)).
Proof.
  destruct (docker_image_digest_of_plain_image Examples.plain
              Examples.docker_self _ _ _ eq_refl eq_refl eq_refl eq_refl)
    as (H & _).
  rewrite H. reflexivity.
Defined.

(** Witness for X16: the tool prints nothing that parses. *)
Lemma docker_digest_first_inspection_failure_witness :
  snd (DockerRepo._get_digest Cases.denied Examples.docker_self true)
  = Raise (Exn JSONDecodeError (PyString "Expecting value")).
Proof.
  destruct (docker_digest_first_inspection_failure Cases.denied
              Examples.docker_self true) as (H & _).
  rewrite (H _ eq_refl). reflexivity.
Defined.

(** Witness for X18. *)
Lemma docker_raw_manifest_list_outcome_witness :
  snd (DockerRepo.get_raw_manifest_list Examples.listed Examples.docker_self)
  = Return (PyDict [("mediaType", PyString Examples.list_media_type)]).
Proof.
  destruct (docker_raw_manifest_list_outcome Examples.listed Examples.docker_self)
    as (H & _).
  rewrite (H _ _ eq_refl eq_refl eq_refl). reflexivity.
Defined.

(** Witness for X19. *)
Lemma docker_raw_manifest_list_strips_witness :
  DockerRepo.raw_manifest_list_command Examples.docker_self
  = "skopeo inspect --override-os linux --raw docker://" ++ "library/busybox:latest".
Proof.
  apply (docker_raw_manifest_list_strips Examples.docker_self
           "library/busybox:latest"); [now left | reflexivity | reflexivity].
Defined.

(** ** The facade, further *)

Section Facade.

Import ImageRepo.

(** X20. What a facade forwards.  The adapter it holds was built for the
    same image and with no explicit credential; the two digest queries go
    to the adapter's own queries and the facade adds no event and no error
    of its own; the raw manifest list is forwarded to the artifact-store
    and CLI-inspection adapters. *)
Theorem facade_forwards w cls img self (w' : World) :
  __init__ w cls img = Return self ->
  image self = img /\
  match image_repo self with
  | Artifactory r =>
      ArtifactoryRepo.__init__ w cls img None None None = Return r /\
      get_image_digest w' self = ([], ArtifactoryRepo.get_image_digest w' r) /\
      get_manifest_list_digest w' self
        = ([], ArtifactoryRepo.get_manifest_list_digest w' r) /\
      get_raw_manifest_list w' self
        = ([], ArtifactoryRepo.get_raw_manifest_list w' r)
  | Quay r =>
      r = QuayRepo.__init__ img /\
      get_image_digest w' self = ([], QuayRepo._get_digest w' r false) /\
      get_manifest_list_digest w' self = ([], QuayRepo._get_digest w' r true)
  | Docker r =>
      r = DockerRepo.__init__ w img None None /\
      get_image_digest w' self = DockerRepo._get_digest w' r false /\
      get_manifest_list_digest w' self = DockerRepo._get_digest w' r true /\
      get_raw_manifest_list w' self = DockerRepo.get_raw_manifest_list w' r
  end.
Proof.
  unfold __init__.
  destruct (PyStr.contains "artifactory" (get_image_repo img)).
  - destruct (ArtifactoryRepo.__init__ w cls img None None None) as [r|e] eqn:E;
      simpl; [|discriminate].
    intros H. injection H as <-. simpl. repeat split.
  - destruct (PyStr.startswith (get_image_repo img) "quay.io/").
    + intros H. injection H as <-. simpl. repeat split.
    + destruct (PyStr.startswith (get_image_repo img) "docker.io");
        [|discriminate].
      intros H. injection H as <-. simpl. repeat split.
Qed.

(** X21. The two prefixes are not tested alike.  Any host that begins with
    [docker.io] and has no [artifactory] in it gets the CLI-inspection
    adapter, whatever follows these nine characters; a host that begins
    with [quay.io] gets the registry-API adapter only when a slash comes
    next, and without the slash (and without the marker) it is refused with
    [RepoTypeNotImplemented]. *)
Theorem facade_prefix_tests w cls img suffix :
  PyStr.contains "artifactory" (get_image_repo img) = false ->
  (get_image_repo img = "docker.io" ++ suffix ->
     __init__ w cls img =
       Return {| image := img;
                 image_repo := Docker (DockerRepo.__init__ w img None None) |}) /\
  (get_image_repo img = "quay.io" ++ suffix ->
     __init__ w cls img =
       if PyStr.startswith suffix "/" then
         Return {| image := img; image_repo := Quay (QuayRepo.__init__ img) |}
       else
         Raise (Exn RepoTypeNotImplemented
                  (PyString ("Unknown repository type for image "
                             ++ get_image img)))).
Proof.
  intros Hm. unfold __init__. rewrite Hm. split; intros ->.
  - unfold PyStr.startswith. simpl. now rewrite prefix_empty.
  - unfold PyStr.startswith. simpl.
    destruct (String.prefix "/" suffix); reflexivity.
Qed.

End Facade.

Section QuayEntries.

Import QuayRepo.

(** X22. An entry that lacks a member.  Without [is_manifest_list] the query
    raises [KeyError] for either request; with a flag that equals the
    request but without [manifest_digest] it raises [KeyError] as well.  No
    digest is returned and none of the module's not-found errors is raised. *)
Theorem quay_incomplete_entry w self manifest_list resp doc items :
  requests_get w (url self ++ get_tag (image self)) = Return resp ->
  status_code resp = 200%Z ->
  json resp = Return doc ->
  Py.getitem doc "tags" = Return (PyList [PyDict items]) ->
  (Py.lookup "is_manifest_list" items = None ->
     _get_digest w self manifest_list
       = Raise (Exn KeyError (PyString "is_manifest_list"))) /\
  (Py.lookup "is_manifest_list" items = Some (PyBool manifest_list) ->
   Py.lookup "manifest_digest" items = None ->
     _get_digest w self manifest_list
       = Raise (Exn KeyError (PyString "manifest_digest"))).
Proof.
  intros Hr Hs Hj Ht.
  rewrite (get_digest_200 w self manifest_list resp doc _ Hr Hs Hj Ht).
  simpl. split.
  - now intros ->.
  - intros -> Hd. simpl. rewrite Bool.eqb_reflx. now rewrite Hd.
Qed.

End QuayEntries.

(** Witness for X20. *)
Lemma facade_forwards_witness :
  ImageRepo.get_image_digest Examples.listed
    {| ImageRepo.image := Examples.image_at "quay.io/operators";
       ImageRepo.image_repo := ImageRepo.Quay Examples.quay_self |}
  = ([], QuayRepo._get_digest Examples.listed Examples.quay_self false).
Proof.
  destruct (facade_forwards Examples.quiet Examples.no_cache
              (Examples.image_at "quay.io/operators") _ Examples.listed eq_refl)
    as (_ & _ & H & _).
  exact H.
Defined.

(** Witness for X21: the host [docker.io.mirror.example]. *)
Lemma facade_prefix_tests_witness :
  ImageRepo.__init__ Examples.quiet Examples.no_cache
    (Examples.image_at "docker.io.mirror.example")
  = Return {| ImageRepo.image := Examples.image_at "docker.io.mirror.example";
              ImageRepo.image_repo :=
                ImageRepo.Docker
                  (DockerRepo.__init__ Examples.quiet
                     (Examples.image_at "docker.io.mirror.example") None None) |}.
Proof.
  destruct (facade_prefix_tests Examples.quiet Examples.no_cache
              (Examples.image_at "docker.io.mirror.example") ".mirror.example"
              eq_refl) as (H & _).
  apply H. reflexivity.
Defined.

(** Witness for X22: an entry that is an empty object. *)
Lemma quay_incomplete_entry_witness :
  QuayRepo._get_digest
    (Cases.world 200 "" (Return (PyDict [("tags", PyList [PyDict []])]))
       (Return PyNone))
    Examples.quay_self true
  = Raise (Exn KeyError (PyString "is_manifest_list")).
Proof.
  destruct (quay_incomplete_entry
              (Cases.world 200 "" (Return (PyDict [("tags", PyList [PyDict []])]))
                 (Return PyNone))
              Examples.quay_self true _ _ [] eq_refl eq_refl eq_refl eq_refl)
    as (H & _).
  apply H. reflexivity.
Defined.
